(** * DocuMagic / DocuMind AI: the document pipeline and its stores

    A shallow embedding of [app.py]: the SQLite-backed user and history
    stores (section 2 of the file), the loading of the model artifacts
    (section 3), [process_document] (section 4) and the part of [main]
    that reacts to the "Process Document Now" button (section 5).

    Conventions.
    - A Python [str] is a [string]: the sequence of its code points, here
      the code points 0..255.
    - A call that may raise yields an [outcome]: [Returned v] or [Raised e].
    - The external libraries (tesseract, the pickled scikit-learn / xgboost
      objects, the transformers pipeline, hashlib) are parameters; the
      calls made to them are logged as [event]s, in program order.
    - SQLite is modelled for the four statements the program prepares. *)

From Stdlib Require Import String Ascii List ZArith NArith Bool Lia.
From Stdlib Require Import Strings.Byte Sorting.Sorted.
Import ListNotations.
Local Open Scope string_scope.
Local Open Scope list_scope.

Set Implicit Arguments.

(** ** Python strings *)

Module PyStr.

(** [str.isspace] on one character (CPython's [_PyUnicode_IsWhitespace]),
    for the code points below 256: TAB..CR, FS..US, SPACE, NEL, NBSP. *)
Definition isspace (c : ascii) : bool :=
  let n := N_of_ascii c in
  ((9 <=? n) && (n <=? 13) || (28 <=? n) && (n <=? 32)
   || (n =? 133) || (n =? 160))%N.

(** [s.lstrip()] *)
Fixpoint lstrip (s : string) : string :=
  match s with
  | EmptyString => EmptyString
  | String c r => if isspace c then lstrip r else s
  end.

(** [s.rstrip()] *)
Fixpoint rstrip (s : string) : string :=
  match s with
  | EmptyString => EmptyString
  | String c r =>
      match rstrip r with
      | EmptyString => if isspace c then EmptyString else String c EmptyString
      | r' => String c r'
      end
  end.

(** [s.strip()] *)
Definition strip (s : string) : string := rstrip (lstrip s).

(** [s[:n]] for a non-negative [n] *)
Fixpoint slice_to (n : nat) (s : string) : string :=
  match n, s with
  | S k, String c r => String c (slice_to k r)
  | _, _ => EmptyString
  end.

(** [len(s)] *)
Definition len (s : string) : nat := String.length s.

(** Truthiness of a [str]: [bool(s)] *)
Definition truthy (s : string) : bool :=
  match s with EmptyString => false | String _ _ => true end.

(** Every character of [s] is white space. *)
Fixpoint all_space (s : string) : bool :=
  match s with
  | EmptyString => true
  | String c r => isspace c && all_space r
  end.

(** [str.encode(s)]: UTF-8.  A code point below 128 is one byte, a code
    point in 128..255 is the two bytes [110000xx 10xxxxxx]. *)
Definition encode_char (c : ascii) : list byte :=
  let n := N_of_ascii c in
  if (n <? 128)%N then [byte_of_ascii c]
  else [byte_of_ascii (ascii_of_N (N.lor 192 (N.shiftr n 6)));
        byte_of_ascii (ascii_of_N (N.lor 128 (N.land n 63)))].

Fixpoint encode (s : string) : list byte :=
  match s with
  | EmptyString => []
  | String c r => encode_char c ++ encode r
  end.

(** Occurrence of a character, as a boolean. *)
Fixpoint mem (c : ascii) (s : string) : bool :=
  match s with
  | EmptyString => false
  | String d r => Ascii.eqb c d || mem c r
  end.

(** [s.startswith(p)], returning the rest of [s] after [p]. *)
Fixpoint strip_prefix (p s : string) : option string :=
  match p, s with
  | EmptyString, _ => Some s
  | String a p', String b s' =>
      if Ascii.eqb a b then strip_prefix p' s' else None
  | String _ _, EmptyString => None
  end.

End PyStr.

(** ** Python exceptions and results *)

(** An exception object: its class and its message. *)
Inductive exn : Type := PyExn (cls msg : string).

Definition exn_class (e : exn) : string := match e with PyExn c _ => c end.

(** The result of a call: it returns a value or raises. *)
Inductive outcome (A : Type) : Type :=
| Returned (a : A)
| Raised (e : exn).
Arguments Raised {A} e.

(** ** SQLite, for the statements of [app.py] *)

Module Sqlite.

(** A value bound to a placeholder or read from a column: a [str], or
    [None] (SQL NULL). *)
Definition value : Type := option string.

(** [users(username TEXT PRIMARY KEY, password TEXT)] *)
Record user_row : Type := UserRow {
  u_username : string;
  u_password : string
}.

(** [history(id INTEGER PRIMARY KEY AUTOINCREMENT, username, timestamp,
    filename, category, summary)] *)
Record history_row : Type := HistoryRow {
  h_id : Z;
  h_username : string;
  h_timestamp : string;
  h_filename : string;
  h_category : string;
  h_summary : value
}.

(** The database file: the two tables, rows in insertion order, and the
    [sqlite_sequence] entry of [history] (the largest id ever handed out). *)
Record database : Type := Database {
  users : list user_row;
  history : list history_row;
  history_seq : Z
}.

(** A statement as handed to the engine: its text and the values bound to
    its [?] placeholders. *)
Record statement : Type := Statement {
  sql : string;
  params : list value
}.

(** A result row: the tuple of its columns. *)
Definition row : Type := list value.

(** A connection: what is committed to the file and what this connection
    sees (its uncommitted changes included). *)
Record connection : Type := Connection {
  committed : database;
  pending : database
}.

Definition connect (file : database) : connection :=
  {| committed := file; pending := file |}.

Definition commit (conn : connection) : connection :=
  {| committed := pending conn; pending := pending conn |}.

(** Closing drops what was not committed. *)
Definition close (conn : connection) : database := committed conn.

Definition IntegrityError : exn :=
  PyExn "sqlite3.IntegrityError" "UNIQUE constraint failed: users.username".
Definition ProgrammingError : exn :=
  PyExn "sqlite3.ProgrammingError" "Incorrect number of bindings supplied.".
Definition OperationalError : exn :=
  PyExn "sqlite3.OperationalError" "unrecognized token".

(** The rowid AUTOINCREMENT gives to the next row: one more than the
    largest of the ids in the table and of the ids ever handed out. *)
Definition max_id (rows : list history_row) : Z :=
  fold_right (fun r m => Z.max (h_id r) m) 0%Z rows.

Definition next_id (db : database) : Z :=
  (Z.max (history_seq db) (max_id (history db)) + 1)%Z.

(** [ORDER BY id DESC], by insertion. *)
Fixpoint insert_desc (r : history_row) (rows : list history_row)
  : list history_row :=
  match rows with
  | [] => [r]
  | x :: rest =>
      if (h_id x <=? h_id r)%Z then r :: rows else x :: insert_desc r rest
  end.

Fixpoint order_by_id_desc (rows : list history_row) : list history_row :=
  match rows with
  | [] => []
  | r :: rest => insert_desc r (order_by_id_desc rest)
  end.

(** A string literal of SQL, read after its opening quote: the text up to
    the closing quote, a doubled quote standing for one quote character,
    and what follows the closing quote.  [None]: the literal is not
    terminated. *)
Fixpoint string_literal (s : string) : option (string * string) :=
  match s with
  | EmptyString => None
  | String c r =>
      if Ascii.eqb c "'" then
        match r with
        | String d r' =>
            if Ascii.eqb d "'" then
              match string_literal r' with
              | Some (v, t) => Some (String "'" v, t)
              | None => None
              end
            else Some (EmptyString, r)
        | EmptyString => Some (EmptyString, EmptyString)
        end
      else
        match string_literal r with
        | Some (v, t) => Some (String c v, t)
        | None => None
        end
  end.

(** The columns [timestamp, filename, category, summary] of a history row. *)
Definition select_columns (r : history_row) : row :=
  [Some (h_timestamp r); Some (h_filename r); Some (h_category r);
   h_summary r].

(** [SELECT * FROM users]: both columns. *)
Definition user_columns (r : user_row) : row :=
  [Some (u_username r); Some (u_password r)].

Definition with_users (db : database) (us : list user_row) : database :=
  {| users := us; history := history db; history_seq := history_seq db |}.

Definition with_pending (conn : connection) (db : database) : connection :=
  {| committed := committed conn; pending := db |}.

(** [WHERE username = lit ORDER BY id DESC] on [history]. *)
Definition history_of (lit : string) (db : database) : list history_row :=
  order_by_id_desc (filter (fun r => h_username r =? lit) (history db)).

(** [WHERE username = u AND password = p] on [users]. *)
Definition users_matching (u p : string) (db : database) : list user_row :=
  filter (fun r => (u_username r =? u) && (u_password r =? p)) (users db).

(** Running one statement on a connection.  The engine is modelled for the
    four statement shapes of the program: the three texts with placeholders
    (bound to strings, but for the summary, which may be NULL), and the
    [SELECT] on [history] whose [WHERE] clause compares [username] with one
    string literal.  [None] stands for anything else (a text with a NUL
    character among them), about which this model says nothing. *)
Definition execute (st : statement) (conn : connection)
  : option (outcome (list row) * connection) :=
  let db := pending conn in
  if sql st =? "INSERT INTO users(username, password) VALUES (?,?)" then
    match params st with
    | [Some username; Some password] =>
        if existsb (fun r => u_username r =? username) (users db)
        then Some (Raised IntegrityError, conn)
        else Some (Returned [],
                   with_pending conn
                     (with_users db (users db ++ [UserRow username password])))
    | [_; _] => None
    | _ => Some (Raised ProgrammingError, conn)
    end
  else if sql st =? "SELECT * FROM users WHERE username =? AND password = ?" then
    match params st with
    | [Some username; Some password] =>
        Some (Returned (map user_columns (users_matching username password db)),
              conn)
    | [_; _] => None
    | _ => Some (Raised ProgrammingError, conn)
    end
  else if sql st =? "INSERT INTO history (username, timestamp, filename, category, summary) VALUES (?,?,?,?,?)" then
    match params st with
    | [Some username; Some timestamp; Some filename; Some category; summary] =>
        let id := next_id db in
        Some (Returned [],
              with_pending conn
                {| users := users db;
                   history := history db ++
                     [HistoryRow id username timestamp filename category summary];
                   history_seq := id |})
    | [_; _; _; _; _] => None
    | _ => Some (Raised ProgrammingError, conn)
    end
  else if PyStr.mem zero (sql st) then None
  else
    match PyStr.strip_prefix
            "SELECT timestamp, filename, category, summary FROM history WHERE username = '"
            (sql st) with
    | Some rest =>
        match string_literal rest with
        | Some (lit, tail) =>
            if tail =? " ORDER BY id DESC" then
              match params st with
              | [] => Some (Returned (map select_columns (history_of lit db)),
                            conn)
              | _ => Some (Raised ProgrammingError, conn)
              end
            else None
        | None => Some (Raised OperationalError, conn)
        end
    | None => None
    end.

End Sqlite.

(** ** Section 2 of [app.py]: database management (auth and history) *)

Module Store.
Import Sqlite.

Section WithHash.

(** [hashlib.sha256(b).hexdigest()] *)
Variable sha256_hexdigest : list byte -> string.

Definition empty_db : database :=
  {| users := []; history := []; history_seq := 0 |}.

(** [init_db]: both [CREATE TABLE IF NOT EXISTS], commit, close.  The file
    [user_data.db] that does not exist yet is [None]. *)
Definition init_db (file : option database) : database :=
  match file with
  | Some db => db
  | None => empty_db
  end.

Definition make_hashes (password : string) : string :=
  sha256_hexdigest (PyStr.encode password).

Definition check_hashes (password hashed_text : string) : bool :=
  if make_hashes password =? hashed_text then true else false.

(** The statement each operation hands to the engine. *)
Definition add_user_statement (username password : string) : statement :=
  {| sql := "INSERT INTO users(username, password) VALUES (?,?)";
     params := [Some username; Some (make_hashes password)] |}.

Definition login_user_statement (username password : string) : statement :=
  {| sql := "SELECT * FROM users WHERE username =? AND password = ?";
     params := [Some username; Some (make_hashes password)] |}.

Definition save_history_statement
  (username timestamp filename category : string) (summary : value)
  : statement :=
  {| sql := "INSERT INTO history (username, timestamp, filename, category, summary) VALUES (?,?,?,?,?)";
     params := [Some username; Some timestamp; Some filename; Some category;
                summary] |}.

(** The f-string of [get_user_history]: the username is pasted in the text. *)
Definition get_user_history_statement (username : string) : statement :=
  {| sql := "SELECT timestamp, filename, category, summary FROM history WHERE username = '"
            ++ username ++ "' ORDER BY id DESC";
     params := [] |}.

(** [add_user]: [True] after the insert and the commit, [False] on
    [sqlite3.IntegrityError]; any other exception escapes. *)
Definition add_user (username password : string) (file : database)
  : option (outcome bool * database) :=
  let conn := connect file in
  match execute (add_user_statement username password) conn with
  | Some (Returned _, conn) =>
      let conn := commit conn in
      Some (Returned true, close conn)
  | Some (Raised e, conn) =>
      if exn_class e =? "sqlite3.IntegrityError"
      then Some (Returned false, close conn)
      else Some (Raised e, close conn)
  | None => None
  end.

(** [login_user]: the rows fetched ([fetchall]); the caller tests the list
    for truthiness. *)
Definition login_user (username password : string) (file : database)
  : option (outcome (list row) * database) :=
  let conn := connect file in
  match execute (login_user_statement username password) conn with
  | Some (Returned data, conn) => Some (Returned data, close conn)
  | Some (Raised e, conn) => Some (Raised e, close conn)
  | None => None
  end.

(** [save_history]; [timestamp] is
    [datetime.now().strftime("%Y-%m-%d %H:%M:%S")], the reading of the clock. *)
Definition save_history
  (username filename category : string) (summary : value)
  (timestamp : string) (file : database)
  : option (outcome unit * database) :=
  let conn := connect file in
  match execute
          (save_history_statement username timestamp filename category summary)
          conn with
  | Some (Returned _, conn) =>
      let conn := commit conn in
      Some (Returned tt, close conn)
  | Some (Raised e, conn) => Some (Raised e, close conn)
  | None => None
  end.

(** [get_user_history]: the data frame [pd.read_sql_query] builds, as the
    list of its rows; pandas reports a failing query as its
    [DatabaseError]. *)
Definition get_user_history (username : string) (file : database)
  : option (outcome (list row) * database) :=
  let conn := connect file in
  match execute (get_user_history_statement username) conn with
  | Some (Returned df, conn) => Some (Returned df, close conn)
  | Some (Raised e, conn) =>
      Some (Raised (PyExn "pandas.errors.DatabaseError"
                      ("Execution failed on sql: " ++ exn_class e)),
            close conn)
  | None => None
  end.

(** [df.empty], and the truthiness of a list. *)
Definition df_empty (df : list row) : bool :=
  match df with [] => true | _ :: _ => false end.

Definition list_truthy (data : list row) : bool := negb (df_empty data).

End WithHash.

End Store.

(** ** Sections 3 and 4 of [app.py]: model loading and the core logic *)

Module Pipeline.

Section WithLibraries.

(** A PIL image, and the sparse matrix the vectorizer produces. *)
Variables image fvec : Type.

(** [pytesseract.image_to_string] *)
Variable image_to_string : image -> outcome string.

(** The loaded objects, by the methods the program calls on them. *)
Record Vectorizer : Type := {
  transform : list string -> outcome fvec
}.

Record Classifier : Type := {
  predict : fvec -> outcome (list Z)
}.

Record LabelEncoder : Type := {
  inverse_transform : list Z -> outcome (list string)
}.

(** A Python [dict] with string keys and values. *)
Definition dict : Type := list (string * string).

(** The summarization pipeline, called as
    [summarizer(text, max_length=.., min_length=.., do_sample=..)]. *)
Record Summarizer : Type := {
  summarization : string -> nat -> nat -> bool -> outcome (list dict)
}.

(** The four module-level names [load_resources] is unpacked into. *)
Record resources : Type := {
  xgb_model : option Classifier;
  tfidf_vectorizer : option Vectorizer;
  label_encoder : option LabelEncoder;
  summarizer : option Summarizer
}.

(** What each of the four loading calls does in this process. *)
Record artifacts : Type := {
  load_model : outcome Classifier;
  load_vectorizer : outcome Vectorizer;
  load_encoder : outcome LabelEncoder;
  load_summarizer : outcome Summarizer
}.

Definition and_then {A B : Type} (r : outcome A) (k : A -> outcome B)
  : outcome B :=
  match r with
  | Returned a => k a
  | Raised e => Raised e
  end.

(** [load_resources]: the four loads in order inside [try]; on any
    exception the four [None]. *)
Definition load_resources (a : artifacts) : resources :=
  match
    and_then (load_model a) (fun model =>
    and_then (load_vectorizer a) (fun vectorizer =>
    and_then (load_encoder a) (fun encoder =>
    and_then (load_summarizer a) (fun summarizer =>
    Returned (model, vectorizer, encoder, summarizer)))))
  with
  | Returned (model, vectorizer, encoder, summarizer) =>
      {| xgb_model := Some model; tfidf_vectorizer := Some vectorizer;
         label_encoder := Some encoder; summarizer := Some summarizer |}
  | Raised _ =>
      {| xgb_model := None; tfidf_vectorizer := None;
         label_encoder := None; summarizer := None |}
  end.

(** The calls made to the libraries. *)
Inductive event : Type :=
| OcrCall (img : image)
| TransformCall (docs : list string)
| PredictCall (v : fvec)
| InverseTransformCall (indices : list Z)
| SummarizerCall (input_text : string) (max_length min_length : nat)
                 (do_sample : bool).

(** Computations that log their calls and may raise. *)
Definition run (A : Type) : Type := list event -> outcome A * list event.

Definition ret {A : Type} (a : A) : run A := fun log => (Returned a, log).

Definition raise {A : Type} (e : exn) : run A := fun log => (Raised e, log).

Definition bind {A B : Type} (m : run A) (k : A -> run B) : run B :=
  fun log =>
    match m log with
    | (Returned a, log') => k a log'
    | (Raised e, log') => (Raised e, log')
    end.

Definition call {A : Type} (ev : event) (result : outcome A) : run A :=
  fun log => (result, log ++ [ev]).

Local Notation "x <- m ;; k" := (bind m (fun x => k))
  (at level 61, m at next level, right associativity).

(** [obj.name] on a module-level name that may hold [None]. *)
Definition attr {A : Type} (name : string) (obj : option A) : run A :=
  match obj with
  | Some o => ret o
  | None => raise (PyExn "AttributeError"
                     ("'NoneType' object has no attribute '" ++ name ++ "'"))
  end.

(** [obj(...)] on a name that may hold [None]. *)
Definition callable {A : Type} (obj : option A) : run A :=
  match obj with
  | Some o => ret o
  | None => raise (PyExn "TypeError" "'NoneType' object is not callable")
  end.

(** [xs[0]] *)
Definition item0 {A : Type} (xs : list A) : run A :=
  match xs with
  | x :: _ => ret x
  | [] => raise (PyExn "IndexError" "index 0 is out of bounds")
  end.

(** [d[key]] *)
Definition getitem (d : dict) (key : string) : run string :=
  match find (fun kv => fst kv =? key) d with
  | Some kv => ret (snd kv)
  | None => raise (PyExn "KeyError" key)
  end.

(** Part C of [process_document]: the summary of [text]. *)
Definition summarize (g : resources) (text : string) : run string :=
  let input_text := PyStr.slice_to 3000 text in
  if (PyStr.len input_text <? 50)%nat then ret "Text too short to summarize."
  else
    s <- callable (summarizer g) ;;
    res <- call (SummarizerCall input_text 130 30 false)
                (summarization s input_text 130 30 false) ;;
    first <- item0 res ;;
    getitem first "summary_text".

(** Part B of [process_document]: the category of [text]. *)
Definition classify (g : resources) (text : string) : run string :=
  v <- attr "transform" (tfidf_vectorizer g) ;;
  text_vec <- call (TransformCall [text]) (transform v [text]) ;;
  m <- attr "predict" (xgb_model g) ;;
  pred <- call (PredictCall text_vec) (predict m text_vec) ;;
  pred_idx <- item0 pred ;;
  enc <- attr "inverse_transform" (label_encoder g) ;;
  labels <- call (InverseTransformCall [pred_idx])
                 (inverse_transform enc [pred_idx]) ;;
  item0 labels.

(** [process_document]: the tuple [(category, summary, text)], or
    [(None, None, "No text found")]. *)
Definition process_document (g : resources) (img : image)
  : run (option string * option string * string) :=
  text <- call (OcrCall img) (image_to_string img) ;;
  if negb (PyStr.truthy (PyStr.strip text)) then
    ret (None, None, "No text found")
  else
    category <- classify g text ;;
    summary <- summarize g text ;;
    ret (Some category, Some summary, text).

End WithLibraries.

End Pipeline.

(** ** Section 5 of [app.py]: what [main] does on each button *)

Module App.
Import Sqlite Store Pipeline.

(** [st.session_state] *)
Record session : Type := {
  logged_in : bool;
  username : string
}.

(** What the page shows. *)
Inductive shown : Type :=
| st_error (msg : string)
| st_warning (msg : string)
| st_success (msg : string)
| result_card (category : string) (summary : option string).

(** Truthiness of [category]: [None] and the empty string are falsy. *)
Definition category_truthy (category : option string) : bool :=
  match category with
  | Some c => PyStr.truthy c
  | None => false
  end.

Section WithLibraries.

Variable sha256_hexdigest : list byte -> string.
Variables image fvec : Type.
Variable image_to_string : image -> outcome string.

(** The "Login" button. *)
Definition login_button (name password : string) (s : session)
  (file : database) : option (outcome (session * list shown) * database) :=
  match login_user sha256_hexdigest name password file with
  | Some (Returned result, file') =>
      if list_truthy result
      then Some (Returned ({| logged_in := true; username := name |}, []),
                 file')
      else Some (Returned (s, [st_error "Incorrect Username or Password"]),
                 file')
  | Some (Raised e, file') => Some (Raised e, file')
  | None => None
  end.

(** The "Create Account" button. *)
Definition create_account_button (name password : string) (file : database)
  : option (outcome (list shown) * database) :=
  match add_user sha256_hexdigest name password file with
  | Some (Returned true, file') =>
      Some (Returned [st_success "Account Created! Please Login."], file')
  | Some (Returned false, file') =>
      Some (Returned [st_warning "Username already taken."], file')
  | Some (Raised e, file') => Some (Raised e, file')
  | None => None
  end.

(** The "Process Document Now" button, for the uploaded file [filename]
    opened as [img]; [timestamp] is the reading of the clock
    [save_history] takes.  The result: what is shown (or the exception
    that escapes), the database file afterwards, the library calls made. *)
Definition process_button (g : resources fvec) (s : session)
  (filename : string) (img : image) (timestamp : string) (file : database)
  : option (outcome (list shown) * database * list (event image fvec)) :=
  match xgb_model g with
  | None => Some (Returned [st_error "Models failed to load."], file, [])
  | Some _ =>
      match process_document image_to_string g img [] with
      | (Raised e, log) => Some (Raised e, file, log)
      | (Returned (category, summary, raw_text), log) =>
          match category with
          | Some c =>
              if PyStr.truthy c then
                match save_history (username s) filename c summary
                        timestamp file with
                | Some (Returned _, file') =>
                    Some (Returned
                            [result_card c summary;
                             st_success "Analysis Complete & Saved to History!"],
                          file', log)
                | Some (Raised e, file') => Some (Raised e, file', log)
                | None => None
                end
              else
                Some (Returned [st_error "Could not read text from image."],
                      file, log)
          | None =>
              Some (Returned [st_error "Could not read text from image."],
                    file, log)
          end
      end
  end.

End WithLibraries.

End App.

(** ** Histories of the store *)

Module Trace.
Import Sqlite Store.

(** The writes and look-ups a client makes. *)
Inductive request : Type :=
| Register (username password : string)
| Login (username password : string)
| Record_run (username filename category : string) (summary : value)
             (timestamp : string).

Section WithHash.

Variable sha256_hexdigest : list byte -> string.

Definition file_after {A : Type} (r : option (outcome A * database))
  (file : database) : database :=
  match r with
  | Some (_, file') => file'
  | None => file
  end.

Definition serve (r : request) (file : database) : database :=
  match r with
  | Register u p => file_after (add_user sha256_hexdigest u p file) file
  | Login u p => file_after (login_user sha256_hexdigest u p file) file
  | Record_run u f c s t => file_after (save_history u f c s t file) file
  end.

Definition serve_all (rs : list request) (file : database) : database :=
  fold_left (fun f r => serve r f) rs file.

(** The rows [history] should show for [u] after [rs], oldest first. *)
Fixpoint recorded (u : string) (rs : list request) : list row :=
  match rs with
  | [] => []
  | Record_run u' f c s t :: rest =>
      if u' =? u then [Some t; Some f; Some c; s] :: recorded u rest
      else recorded u rest
  | _ :: rest => recorded u rest
  end.

End WithHash.

End Trace.

(** ** Vocabulary of the statements *)

Module Invariants.
Import Sqlite Pipeline.

Definition id_lt (a b : history_row) : Prop := (h_id a < h_id b)%Z.

(** The rows of a table in the order of their ids. *)
Definition ids_ascending (rows : list history_row) : Prop :=
  StronglySorted id_lt rows.

(** The credential rows of [u]. *)
Definition rows_of (u : string) (db : database) : list user_row :=
  filter (fun r => u_username r =? u) (users db).

(** The PRIMARY KEY of [users]: at most one row per username. *)
Definition key_ok (db : database) : Prop :=
  forall u, length (rows_of u db) <= 1.

(** What the history store keeps: rows by ascending id. *)
Definition history_ok (db : database) : Prop :=
  ids_ascending (history db).

Definition select_prefix : string :=
  "SELECT timestamp, filename, category, summary FROM history WHERE username = '".

(** [res[0]['summary_text']] on what the summarizer gave. *)
Definition summary_text_of (res : outcome (list dict)) : outcome string :=
  match res with
  | Returned (d :: _) =>
      match find (fun kv => fst kv =? "summary_text") d with
      | Some kv => Returned (snd kv)
      | None => Raised (PyExn "KeyError" "summary_text")
      end
  | Returned [] => Raised (PyExn "IndexError" "index 0 is out of bounds")
  | Raised e => Raised e
  end.

(** The resources when a load failed. *)
Definition nothing_loaded (fvec : Type) : resources fvec :=
  {| xgb_model := None; tfidf_vectorizer := None;
     label_encoder := None; summarizer := None |}.

End Invariants.

(** ** A small installation, for the examples *)

Module Demo.
Import Sqlite Store Pipeline App.

(** A digest for the examples: the bytes themselves, as a string. *)
Definition plain_digest (b : list byte) : string := string_of_list_byte b.

Definition one_user : database :=
  {| users := [UserRow "alice" (Store.make_hashes plain_digest "secret")];
     history := []; history_seq := 0 |}.

(** An uploaded file: the text printed on the page, or a file the OCR
    engine cannot read. *)
Definition scan : Type := option string.

Definition demo_ocr (img : scan) : outcome string :=
  match img with
  | Some printed => Returned printed
  | None => Raised (PyExn "TypeError" "Unsupported image object")
  end.

(** Feature vectors are numbers here; every document gets the class 0,
    whose name is [label]; every summary is the same sentence. *)
Definition demo_vectorizer : Vectorizer nat :=
  {| transform := fun docs => Returned (length docs) |}.

Definition demo_model : Classifier nat :=
  {| predict := fun _ => Returned [0%Z] |}.

Definition demo_encoder (label : string) : LabelEncoder :=
  {| inverse_transform := fun indices => Returned (map (fun _ => label) indices) |}.

Definition demo_summarizer : Summarizer :=
  {| summarization := fun _ _ _ _ =>
       Returned [[("summary_text", "A summary.")]] |}.

Definition demo_resources (label : string) : resources nat :=
  {| xgb_model := Some demo_model;
     tfidf_vectorizer := Some demo_vectorizer;
     label_encoder := Some (demo_encoder label);
     summarizer := Some demo_summarizer |}.

(** The vectorizer file is missing. *)
Definition demo_artifacts : artifacts nat :=
  {| load_model := Returned demo_model;
     load_vectorizer :=
       Raised (PyExn "FileNotFoundError" "tfidf_vectorizer_new.pkl");
     load_encoder := Returned (demo_encoder "invoice");
     load_summarizer := Returned demo_summarizer |}.

Definition demo_session : session :=
  {| logged_in := true; username := "alice" |}.

(** Three spaces, a line feed and a form feed. *)
Definition blank_page : string :=
  String " " (String " " (String " " (String "010" (String "012" "")))).

(** Twelve characters followed by sixty spaces. *)
Definition padded_line : string :=
  "Invoice 1023" ++ String.concat "" (repeat " " 60).

End Demo.

(** ** Section 5 of [app.py]: one run of the script *)

Module Script.
Import Sqlite Store Pipeline App.

(** The four buttons of the page. *)
Inductive button : Type :=
| LoginButton
| CreateAccountButton
| LogOutButton
| ProcessButton.

(** The sidebar under "Your History":
    [st.dataframe(history_df[['timestamp', 'category', 'filename']])], or
    "No history yet.". *)
Inductive sidebar_view : Type :=
| HistoryTable (rows : list row)
| NoHistoryYet.

(** [history_df[['timestamp', 'category', 'filename']]] on one row of the
    frame, whose columns are timestamp, filename, category, summary. *)
Definition sidebar_columns (r : row) : row :=
  match r with
  | [timestamp; filename; category; _] => [timestamp; category; filename]
  | _ => []
  end.

(** What one run puts on the page. *)
Record page : Type := {
  sidebar : option sidebar_view;
  body : list shown
}.

(** [st.session_state] as the script fills it on the first run. *)
Definition initial_session : session :=
  {| logged_in := false; username := "" |}.

Section WithLibraries.

Variable sha256_hexdigest : list byte -> string.
Variables image fvec : Type.
Variable image_to_string : image -> outcome string.

(** An uploaded file, its [name], and [Image.open] on it. *)
Variable upload : Type.
Variable upload_name : upload -> string.
Variable image_open : upload -> outcome image.

(** The widgets as the user left them when the run starts: the select
    box, the two text inputs, the file uploader, and the button whose
    press started the run, if any. *)
Record widgets : Type := {
  choice : string;
  username_input : string;
  password_input : string;
  uploaded_file : option upload;
  pressed : option button
}.

(** [main]: the login and sign-up screen when the session is not logged
    in, the dashboard otherwise.  [st.rerun()] ends the run.  The result:
    the session and the page (or the exception that escapes), the database
    file afterwards, the calls made to the model libraries. *)
Definition main (g : resources fvec) (s : session) (w : widgets)
  (timestamp : string) (file : database)
  : option (outcome (session * page) * database * list (event image fvec)) :=
  if negb (logged_in s) then
    if choice w =? "Login" then
      match pressed w with
      | Some LoginButton =>
          match login_button sha256_hexdigest (username_input w)
                  (password_input w) s file with
          | Some (Returned (s', msgs), file') =>
              Some (Returned (s', {| sidebar := None; body := msgs |}),
                    file', [])
          | Some (Raised e, file') => Some (Raised e, file', [])
          | None => None
          end
      | _ => Some (Returned (s, {| sidebar := None; body := [] |}), file, [])
      end
    else
      match pressed w with
      | Some CreateAccountButton =>
          match create_account_button sha256_hexdigest (username_input w)
                  (password_input w) file with
          | Some (Returned msgs, file') =>
              Some (Returned (s, {| sidebar := None; body := msgs |}),
                    file', [])
          | Some (Raised e, file') => Some (Raised e, file', [])
          | None => None
          end
      | _ => Some (Returned (s, {| sidebar := None; body := [] |}), file, [])
      end
  else
    match pressed w with
    | Some LogOutButton =>
        Some (Returned ({| logged_in := false; username := username s |},
                        {| sidebar := None; body := [] |}),
              file, [])
    | _ =>
        match get_user_history (username s) file with
        | Some (Returned history_df, file1) =>
            let side :=
              if df_empty history_df then NoHistoryYet
              else HistoryTable (map sidebar_columns history_df) in
            match uploaded_file w with
            | Some uploaded =>
                match image_open uploaded with
                | Returned img =>
                    match pressed w with
                    | Some ProcessButton =>
                        match process_button image_to_string g s
                                (upload_name uploaded) img timestamp file1
                        with
                        | Some (Returned msgs, file2, log) =>
                            Some (Returned
                                    (s, {| sidebar := Some side;
                                           body := msgs |}),
                                  file2, log)
                        | Some (Raised e, file2, log) =>
                            Some (Raised e, file2, log)
                        | None => None
                        end
                    | _ =>
                        Some (Returned
                                (s, {| sidebar := Some side; body := [] |}),
                              file1, [])
                    end
                | Raised e => Some (Raised e, file1, [])
                end
            | None =>
                Some (Returned (s, {| sidebar := Some side; body := [] |}),
                      file1, [])
            end
        | Some (Raised e, file1) => Some (Raised e, file1, [])
        | None => None
        end
    end.

(** One run of the whole script: [init_db()], the (cached)
    [load_resources()], the two defaults of [st.session_state], then
    [main()].  [state] is [None] for a new browser session, [file] is
    [None] while [user_data.db] does not exist. *)
Definition script_run (a : artifacts fvec) (state : option session)
  (w : widgets) (timestamp : string) (file : option database)
  : option (outcome (session * page) * database * list (event image fvec)) :=
  main (load_resources a)
    (match state with Some s => s | None => initial_session end)
    w timestamp (init_db file).

End WithLibraries.

End Script.

(** ** Vocabulary of the further statements *)

Module Measures.
Import Sqlite Pipeline Trace.

(** The number of runs recorded by the requests. *)
Fixpoint count_runs (rs : list request) : nat :=
  match rs with
  | [] => 0
  | Record_run _ _ _ _ _ :: rest => S (count_runs rest)
  | _ :: rest => count_runs rest
  end.

(** The numbering of a history table made by [save_history] alone: the
    ids 1, 2, ... in storage order, the last one in [sqlite_sequence]. *)
Definition numbered (db : database) : Prop :=
  map h_id (history db)
  = map Z.of_nat (seq 1 (length (history db))) /\
  history_seq db = Z.of_nat (length (history db)).

(** The sidebar for a data frame: the table of its rows, or the notice
    when it is empty. *)
Definition side_of (history_df : list row) : Script.sidebar_view :=
  if Store.df_empty history_df then Script.NoHistoryYet
  else Script.HistoryTable (map Script.sidebar_columns history_df).

(** A username that can be pasted between quotes as it is: no quote and
    no NUL character in it. *)
Definition plain (u : string) : bool :=
  negb (PyStr.mem "'" u) && negb (PyStr.mem zero u).

(** The place of a library call in the pipeline: OCR, vectorizer,
    classifier, label decoder, summarizer. *)
Definition stage {image fvec : Type} (ev : event image fvec) : nat :=
  match ev with
  | OcrCall _ _ => 0
  | TransformCall _ _ _ => 1
  | PredictCall _ _ => 2
  | InverseTransformCall _ _ _ => 3
  | SummarizerCall _ _ _ _ _ _ => 4
  end.

(** Prefix test on byte strings. *)
Fixpoint prefixb (p l : list byte) : bool :=
  match p, l with
  | [], _ => true
  | a :: p', b :: l' => Byte.eqb a b && prefixb p' l'
  | _ :: _, [] => false
  end.

(** A test on both booleans, and on all 256 characters. *)
Definition forall_bool (f : bool -> bool) : bool := f true && f false.

Definition forall_ascii (f : ascii -> bool) : bool :=
  forall_bool (fun b0 => forall_bool (fun b1 => forall_bool (fun b2 =>
  forall_bool (fun b3 => forall_bool (fun b4 => forall_bool (fun b5 =>
  forall_bool (fun b6 => forall_bool (fun b7 =>
    f (Ascii b0 b1 b2 b3 b4 b5 b6 b7))))))))).

End Measures.

(** ** More of the small installation *)

Module DemoScript.
Import Sqlite Store Pipeline App Trace Script Demo.

(** A registration and three recorded runs, two of them of alice. *)
Definition two_runs : list request :=
  [Register "alice" "secret";
   Record_run "alice" "a.png" "invoice" (Some "First.") "2024-05-01 10:00:00";
   Record_run "bob" "b.png" "letter" None "2024-05-01 10:05:00";
   Record_run "alice" "c.png" "memo" (Some "Second.") "2024-05-01 10:10:00"].

(** All four artifacts load. *)
Definition demo_artifacts_loaded : artifacts nat :=
  {| load_model := Returned demo_model;
     load_vectorizer := Returned demo_vectorizer;
     load_encoder := Returned (demo_encoder "invoice");
     load_summarizer := Returned demo_summarizer |}.

(** An uploaded file: its name and what is printed on it. *)
Definition demo_upload : Type := (string * scan)%type.

Definition demo_name (up : demo_upload) : string := fst up.

Definition demo_open (up : demo_upload) : outcome scan := Returned (snd up).

(** The widgets of four runs: the login and the sign-up of alice, a press
    of the process button with a file uploaded, and a run without any
    press. *)
Definition widgets_login : widgets demo_upload :=
  {| choice := "Login"; username_input := "alice";
     password_input := "secret"; uploaded_file := None;
     pressed := Some LoginButton |}.

Definition widgets_sign_up : widgets demo_upload :=
  {| choice := "Sign Up"; username_input := "alice";
     password_input := "secret"; uploaded_file := None;
     pressed := Some CreateAccountButton |}.

Definition widgets_process : widgets demo_upload :=
  {| choice := "Login"; username_input := ""; password_input := "";
     uploaded_file := Some ("scan.png", Some "Invoice 1023 total due 450");
     pressed := Some ProcessButton |}.

Definition widgets_idle : widgets demo_upload :=
  {| choice := "Login"; username_input := ""; password_input := "";
     uploaded_file := None; pressed := None |}.

(** A session logged in under a name that ends with a quote. *)
Definition quote_session : session :=
  {| logged_in := true; username := "dev'" |}.

End DemoScript.

(** * Properties *)

(** ** Strings *)

Module PyStrFacts.
Import PyStr.

Lemma lstrip_all_space s : all_space s = true -> lstrip s = "".
Proof.
  induction s as [|c r IH]; simpl; auto.
  intros H. apply andb_true_iff in H as [Hc Hr]. rewrite Hc. auto.
Qed.

Lemma rstrip_empty_iff s : rstrip s = "" <-> all_space s = true.
Proof.
  induction s as [|c r IH]; simpl.
  - tauto.
  - destruct (rstrip r) eqn:E.
    + destruct (isspace c); simpl.
      * split; intros _; [apply IH|]; reflexivity.
      * split; discriminate.
    + split; [discriminate|].
      intros H. apply andb_true_iff in H as [_ Hr].
      apply IH in Hr. discriminate.
Qed.

Lemma lstrip_not_space s :
  all_space s = false -> all_space (lstrip s) = false.
Proof.
  induction s as [|c r IH]; simpl; [discriminate|].
  destruct (isspace c) eqn:E; simpl; auto.
  intros _. rewrite E. reflexivity.
Qed.

(** [not s.strip()] holds exactly for the strings made of white space only
    (the empty string among them). *)
Lemma strip_empty_iff s : strip s = "" <-> all_space s = true.
Proof.
  unfold strip. rewrite rstrip_empty_iff. split.
  - intros H. destruct (all_space s) eqn:E; auto.
    apply lstrip_not_space in E. congruence.
  - intros H. rewrite (lstrip_all_space _ H). reflexivity.
Qed.

Lemma truthy_false_iff s : truthy s = false <-> s = "".
Proof. destruct s; simpl; split; congruence. Qed.

Lemma truthy_strip_all_space s :
  truthy (strip s) = false <-> all_space s = true.
Proof. rewrite truthy_false_iff. apply strip_empty_iff. Qed.

Lemma strip_prefix_app p s : strip_prefix p (p ++ s) = Some s.
Proof.
  induction p as [|a p IH]; simpl; auto.
  rewrite Ascii.eqb_refl. exact IH.
Qed.

Lemma slice_to_length n s : len (slice_to n s) = Nat.min n (len s).
Proof.
  unfold len. revert s.
  induction n as [|k IH]; intros [|c r]; simpl; auto.
Qed.

Lemma strip_length_le s : len (strip s) <= len s.
Proof.
  assert (R : forall t, String.length (rstrip t) <= String.length t).
  { induction t as [|c r IH]; simpl; auto.
    destruct (rstrip r); [destruct (isspace c)|]; simpl in *; lia. }
  assert (L : forall t, String.length (lstrip t) <= String.length t).
  { induction t as [|c r IH]; simpl; auto.
    destruct (isspace c); simpl; lia. }
  unfold strip, len. specialize (R (lstrip s)). specialize (L s). lia.
Qed.

Lemma length_app s t :
  String.length (s ++ t) = String.length s + String.length t.
Proof. induction s as [|c r IH]; simpl; auto. Qed.

Lemma app_cancel_l p s t : (p ++ s = p ++ t)%string -> s = t.
Proof.
  induction p as [|c r IH]; simpl; auto.
  intros [= H]. auto.
Qed.

Lemma app_cancel_r s t z : (s ++ z = t ++ z)%string -> s = t.
Proof.
  revert t. induction s as [|c r IH]; intros [|d t] H; simpl in H; auto.
  - apply (f_equal String.length) in H. simpl in H.
    rewrite length_app in H. lia.
  - apply (f_equal String.length) in H. simpl in H.
    rewrite length_app in H. lia.
  - injection H as -> H. f_equal. auto.
Qed.

Lemma mem_app c s t : mem c (s ++ t) = mem c s || mem c t.
Proof.
  induction s as [|d r IH]; simpl; auto.
  rewrite IH. apply orb_assoc.
Qed.

End PyStrFacts.

(** ** The engine *)

Module SqliteFacts.
Import Sqlite Invariants.

(** A literal without a quote character is read back as it is. *)
Lemma string_literal_plain u d t :
  PyStr.mem "'" u = false ->
  d <> "'"%char ->
  string_literal (u ++ String "'" (String d t)) = Some (u, String d t).
Proof.
  intros Hu Hd. induction u as [|c r IH].
  - simpl. destruct (Ascii.eqb d "'") eqn:E; auto.
    apply Ascii.eqb_eq in E. contradiction.
  - cbn [PyStr.mem] in Hu. apply orb_false_iff in Hu as [Hc Hr].
    change ((String c r ++ String "'" (String d t))%string)
      with (String c (r ++ String "'" (String d t))).
    cbn [string_literal]. rewrite Ascii.eqb_sym in Hc. rewrite Hc.
    rewrite (IH Hr). reflexivity.
Qed.

Lemma insert_desc_smallest r rows :
  Forall (id_lt r) rows -> insert_desc r rows = rows ++ [r].
Proof.
  induction 1 as [|x rest Hx _ IH]; simpl; auto.
  unfold id_lt in Hx.
  destruct (Z.leb_spec (h_id x) (h_id r)); [lia|].
  rewrite IH. reflexivity.
Qed.

(** On rows stored by ascending id, [ORDER BY id DESC] is the reversal. *)
Lemma order_by_id_desc_rev rows :
  ids_ascending rows -> order_by_id_desc rows = rev rows.
Proof.
  induction 1 as [|r rest _ IH Hr]; simpl; auto.
  rewrite IH. apply insert_desc_smallest.
  apply Forall_forall. intros x Hx. apply in_rev in Hx.
  rewrite Forall_forall in Hr. auto.
Qed.

Lemma ids_ascending_filter f rows :
  ids_ascending rows -> ids_ascending (filter f rows).
Proof.
  induction 1 as [|r rest _ IH Hr]; simpl; [constructor|].
  destruct (f r); auto.
  constructor; auto.
  rewrite Forall_forall in *. intros x Hx.
  apply filter_In in Hx. apply Hr, Hx.
Qed.

Lemma ids_ascending_snoc rows r :
  ids_ascending rows -> (max_id rows < h_id r)%Z ->
  ids_ascending (rows ++ [r]).
Proof.
  intros Hs Hr. induction Hs as [|x rest Hs IH Hx].
  - simpl. repeat constructor.
  - simpl in *. constructor.
    + apply IH. lia.
    + apply Forall_app. split; auto.
      constructor; [unfold id_lt; lia | constructor].
Qed.

End SqliteFacts.

(** ** The user store and the history store *)

Module StoreFacts.
Import Sqlite Store Trace Invariants SqliteFacts.

Section WithHash.

Variable sha256_hexdigest : list byte -> string.

Local Abbreviation make_hashes := (make_hashes sha256_hexdigest).
Local Abbreviation add_user := (add_user sha256_hexdigest).
Local Abbreviation login_user := (login_user sha256_hexdigest).
Local Abbreviation serve := (serve sha256_hexdigest).
Local Abbreviation serve_all := (serve_all sha256_hexdigest).

(** *** The operations, statement by statement *)

Lemma add_user_eq u p db :
  add_user u p db =
  if existsb (fun r => u_username r =? u) (users db)
  then Some (Returned false, db)
  else Some (Returned true,
             with_users db (users db ++ [UserRow u (make_hashes p)])).
Proof.
  unfold Store.add_user, execute. simpl.
  destruct (existsb _ (users db)); reflexivity.
Qed.

Lemma login_user_eq u p db :
  login_user u p db =
  Some (Returned (map user_columns (users_matching u (make_hashes p) db)), db).
Proof. reflexivity. Qed.

Lemma save_history_eq u f c s t db :
  save_history u f c s t db =
  Some (Returned tt,
        {| users := users db;
           history := history db ++ [HistoryRow (next_id db) u t f c s];
           history_seq := next_id db |}).
Proof. reflexivity. Qed.

Lemma get_user_history_text u :
  sql (get_user_history_statement u)
  = (select_prefix ++ u ++ "' ORDER BY id DESC")%string.
Proof. reflexivity. Qed.

(** Two usernames never give the same text. *)
Lemma get_user_history_text_injective u v :
  sql (get_user_history_statement u) = sql (get_user_history_statement v) ->
  u = v.
Proof.
  rewrite !get_user_history_text. intros H.
  apply PyStrFacts.app_cancel_l in H.
  apply PyStrFacts.app_cancel_r in H. exact H.
Qed.

(** The query of [get_user_history] for a username without a quote (and
    without a NUL): the rows of that username, newest id first. *)
Lemma get_user_history_plain u db :
  PyStr.mem "'" u = false ->
  PyStr.mem zero u = false ->
  get_user_history u db
  = Some (Returned (map select_columns (history_of u db)), db).
Proof.
  intros Hq Hz. unfold get_user_history, execute.
  rewrite get_user_history_text.
  change (params (get_user_history_statement u)) with (@nil value).
  change ((select_prefix ++ u ++ "' ORDER BY id DESC" =?
           "INSERT INTO users(username, password) VALUES (?,?)")%string)
    with false.
  change ((select_prefix ++ u ++ "' ORDER BY id DESC" =?
           "SELECT * FROM users WHERE username =? AND password = ?")%string)
    with false.
  change ((select_prefix ++ u ++ "' ORDER BY id DESC" =?
           "INSERT INTO history (username, timestamp, filename, category, summary) VALUES (?,?,?,?,?)")%string)
    with false.
  cbv iota.
  rewrite PyStrFacts.mem_app, PyStrFacts.mem_app, Hz.
  change (PyStr.mem zero select_prefix) with false.
  change (PyStr.mem zero "' ORDER BY id DESC") with false.
  cbv [orb].
  fold select_prefix. rewrite PyStrFacts.strip_prefix_app.
  rewrite (@string_literal_plain u " "%char "ORDER BY id DESC" Hq)
    by discriminate.
  reflexivity.
Qed.

(** *** Registration *)

Lemma existsb_rows_of u db :
  existsb (fun r => u_username r =? u) (users db) = false <->
  rows_of u db = [].
Proof.
  unfold rows_of. induction (users db) as [|r rest IH]; simpl.
  - tauto.
  - destruct (u_username r =? u); simpl; [split; discriminate | exact IH].
Qed.

Lemma rows_of_with_users u db us :
  rows_of u (with_users db us) = filter (fun r => u_username r =? u) us.
Proof. reflexivity. Qed.

Lemma rows_of_added u v h db :
  rows_of v (with_users db (users db ++ [UserRow u h]))
  = rows_of v db ++ (if u =? v then [UserRow u h] else []).
Proof.
  rewrite rows_of_with_users, filter_app. reflexivity.
Qed.

Lemma add_user_key_ok u p db r db' :
  key_ok db -> add_user u p db = Some (r, db') -> key_ok db'.
Proof.
  intros K. rewrite add_user_eq.
  destruct (existsb _ (users db)) eqn:E; intros [= <- <-]; auto.
  intros v. rewrite rows_of_added, length_app.
  destruct (String.eqb_spec u v) as [->|_]; simpl.
  - apply existsb_rows_of in E. rewrite E. simpl. lia.
  - specialize (K v). lia.
Qed.

Lemma serve_users_key_ok r db : key_ok db -> key_ok (serve r db).
Proof.
  intros K. destruct r as [u p|u p|u f c s t]; simpl.
  - destruct (add_user u p db) as [[o db']|] eqn:E; simpl; auto.
    eapply add_user_key_ok; eauto.
  - exact K.
  - exact K.
Qed.

Lemma serve_all_key_ok rs db : key_ok db -> key_ok (serve_all rs db).
Proof.
  revert db. induction rs as [|r rs IH]; intros db K; simpl; auto.
  apply IH, serve_users_key_ok, K.
Qed.

Lemma init_db_key_ok : key_ok (init_db None).
Proof. intros u. simpl. lia. Qed.

(** *** History *)

Lemma serve_history_ok r db : history_ok db -> history_ok (serve r db).
Proof.
  unfold history_ok. intros H. destruct r as [u p|u p|u f c s t]; simpl.
  - rewrite add_user_eq. destruct (existsb _ (users db)); exact H.
  - exact H.
  - apply ids_ascending_snoc; auto.
    unfold next_id; simpl. lia.
Qed.

Lemma serve_all_history_ok rs db :
  history_ok db -> history_ok (serve_all rs db).
Proof.
  revert db. induction rs as [|r rs IH]; intros db K; simpl; auto.
  apply IH, serve_history_ok, K.
Qed.

(** The stored rows of [u], in storage order, after the requests [rs]. *)
Lemma serve_all_recorded u rs db :
  map select_columns
    (filter (fun r => h_username r =? u) (history (serve_all rs db)))
  = map select_columns (filter (fun r => h_username r =? u) (history db))
    ++ recorded u rs.
Proof.
  revert db. induction rs as [|r rs IH]; intros db.
  - simpl. rewrite app_nil_r. reflexivity.
  - change (serve_all (r :: rs) db) with (serve_all rs (serve r db)).
    rewrite IH. clear IH.
    destruct r as [v p|v p|v f c s t]; simpl.
    + rewrite add_user_eq. destruct (existsb _ (users db)); reflexivity.
    + reflexivity.
    + rewrite filter_app, map_app, <- app_assoc. simpl.
      destruct (v =? u); reflexivity.
Qed.

(** For a username without quote and NUL characters, [get_user_history]
    after any requests on a new database returns the rows recorded for
    that username and no others, the newest first. *)
Lemma get_user_history_recorded u rs :
  PyStr.mem "'" u = false ->
  PyStr.mem zero u = false ->
  let db := serve_all rs (init_db None) in
  get_user_history u db = Some (Returned (rev (recorded u rs)), db).
Proof.
  intros Hq Hz db. rewrite (@get_user_history_plain u db Hq Hz).
  unfold history_of. rewrite order_by_id_desc_rev.
  - rewrite map_rev. unfold db.
    rewrite serve_all_recorded. reflexivity.
  - apply ids_ascending_filter.
    apply (@serve_all_history_ok rs (init_db None)). constructor.
Qed.

End WithHash.

End StoreFacts.

(** ** Registration, login and history: the statements of the specification *)

Module StoreClaims.
Import Sqlite Store Trace App Invariants Demo SqliteFacts StoreFacts.

Section WithHash.

Variable sha256_hexdigest : list byte -> string.

Local Abbreviation make_hashes := (make_hashes sha256_hexdigest).
Local Abbreviation add_user := (add_user sha256_hexdigest).
Local Abbreviation login_user := (login_user sha256_hexdigest).
Local Abbreviation serve_all := (serve_all sha256_hexdigest).

Lemma users_matching_rows_of u h db :
  users_matching u h db = filter (fun r => u_password r =? h) (rows_of u db).
Proof.
  unfold users_matching, rows_of.
  induction (users db) as [|r rest IH]; simpl; auto.
  destruct (u_username r =? u); simpl; rewrite IH; reflexivity.
Qed.

(** C5.  Registering a username that has no row yet returns [True] and
    leaves exactly one row for it (the hash of the password given), the
    rows of the other usernames and the history being as before; a second
    registration of the same username, with any password, returns [False]
    (shown as a warning, nothing is raised) and leaves the file as it is;
    and, the key constraint holding at the start, no later request makes a
    second row for any username. *)
Theorem add_user_twice (u p1 p2 : string) (db : database) :
  rows_of u db = [] ->
  exists db',
    add_user u p1 db = Some (Returned true, db') /\
    rows_of u db' = [UserRow u (make_hashes p1)] /\
    (forall v, v <> u -> rows_of v db' = rows_of v db) /\
    history db' = history db /\
    add_user u p2 db' = Some (Returned false, db') /\
    create_account_button sha256_hexdigest u p2 db'
      = Some (Returned [st_warning "Username already taken."], db') /\
    (key_ok db ->
     forall rs v, length (rows_of v (serve_all rs db')) <= 1).
Proof.
  intros Hnew.
  pose proof (proj2 (existsb_rows_of u db) Hnew) as Hex.
  exists (with_users db (users db ++ [UserRow u (make_hashes p1)])).
  assert (Hfirst : add_user u p1 db
                   = Some (Returned true,
                           with_users db
                             (users db ++ [UserRow u (make_hashes p1)]))).
  { rewrite add_user_eq, Hex. reflexivity. }
  assert (Hrow : rows_of u (with_users db
                              (users db ++ [UserRow u (make_hashes p1)]))
                 = [UserRow u (make_hashes p1)]).
  { rewrite rows_of_added, Hnew, String.eqb_refl. reflexivity. }
  assert (Hsecond : add_user u p2
                      (with_users db
                         (users db ++ [UserRow u (make_hashes p1)]))
                    = Some (Returned false,
                            with_users db
                              (users db ++ [UserRow u (make_hashes p1)]))).
  { rewrite add_user_eq.
    set (db1 := with_users db _) in *.
    destruct (existsb _ (users db1)) eqn:E; [reflexivity|].
    apply existsb_rows_of in E. rewrite Hrow in E. discriminate. }
  repeat split; auto.
  - intros v Hv. rewrite rows_of_added.
    destruct (String.eqb_spec u v) as [->|_]; [contradiction|].
    apply app_nil_r.
  - unfold create_account_button. rewrite Hsecond. reflexivity.
  - intros K rs v. apply serve_all_key_ok.
    eapply add_user_key_ok; eauto.
Qed.

(** C7.  [login_user] returns the empty list, and the page shows
    "Incorrect Username or Password" and leaves the session as it is,
    both when the username has no row and when its row holds a hash other
    than the hash of the password supplied. *)
Theorem login_user_rejects (u p : string) (db : database) :
  (rows_of u db = [] \/
   exists h, rows_of u db = [UserRow u h] /\ make_hashes p <> h) ->
  login_user u p db = Some (Returned [], db) /\
  forall s, login_button sha256_hexdigest u p s db
            = Some (Returned (s, [st_error "Incorrect Username or Password"]),
                    db).
Proof.
  intros H.
  assert (E : login_user u p db = Some (Returned [], db)).
  { rewrite login_user_eq, users_matching_rows_of.
    destruct H as [-> | (h & -> & Hh)]; simpl; auto.
    destruct (String.eqb_spec h (make_hashes p)) as [->|_]; auto.
    contradiction. }
  split; auto.
  intros s. unfold login_button. rewrite E. reflexivity.
Qed.

(** C8.  After a registration that succeeded, logging in with the same
    username and password fetches the row just created (the hash is
    computed again from the same password and equals the one stored), and
    the page marks the session as logged in under that username. *)
Theorem add_user_then_login (u p : string) (db db' : database) :
  add_user u p db = Some (Returned true, db') ->
  login_user u p db'
  = Some (Returned [[Some u; Some (make_hashes p)]], db') /\
  forall s, login_button sha256_hexdigest u p s db'
            = Some (Returned ({| logged_in := true; username := u |}, []),
                    db').
Proof.
  rewrite add_user_eq.
  destruct (existsb _ (users db)) eqn:E; intros [= <-].
  apply existsb_rows_of in E.
  assert (L : login_user u p
                (with_users db (users db ++ [UserRow u (make_hashes p)]))
              = Some (Returned [[Some u; Some (make_hashes p)]],
                      with_users db
                        (users db ++ [UserRow u (make_hashes p)]))).
  { rewrite login_user_eq, users_matching_rows_of, rows_of_added, E.
    rewrite String.eqb_refl. simpl. rewrite String.eqb_refl. reflexivity. }
  split; auto.
  intros s. unfold login_button. rewrite L. reflexivity.
Qed.

(** C9.  The statements of [add_user], [login_user] and [save_history]
    have one text each, whatever the user data, which travel as bound
    values; the statement of [get_user_history] binds nothing and has the
    username inside its text: the usernames [alice] and [bob] give two
    different texts, as any two usernames do. *)
Theorem get_user_history_text_varies :
  (forall u p u' p',
      sql (add_user_statement sha256_hexdigest u p)
      = sql (add_user_statement sha256_hexdigest u' p')) /\
  (forall u p u' p',
      sql (login_user_statement sha256_hexdigest u p)
      = sql (login_user_statement sha256_hexdigest u' p')) /\
  (forall u t f c s u' t' f' c' s',
      sql (save_history_statement u t f c s)
      = sql (save_history_statement u' t' f' c' s')) /\
  (forall u, params (get_user_history_statement u) = []) /\
  sql (get_user_history_statement "alice")
  = "SELECT timestamp, filename, category, summary FROM history WHERE username = 'alice' ORDER BY id DESC" /\
  sql (get_user_history_statement "bob")
  = "SELECT timestamp, filename, category, summary FROM history WHERE username = 'bob' ORDER BY id DESC" /\
  sql (get_user_history_statement "alice")
  <> sql (get_user_history_statement "bob") /\
  (forall u v, u <> v ->
     sql (get_user_history_statement u) <> sql (get_user_history_statement v)).
Proof.
  repeat split; try discriminate.
  intros u v N E. apply N, get_user_history_text_injective, E.
Qed.

(** C6.  One run recorded for the user [a'b] and none for the user whose
    name is [a''b]: [get_user_history] of the latter returns the row of
    the former, because the engine reads the doubled quote in the pasted
    text as one quote. *)
Theorem get_user_history_doubled_quote :
  let rs := [Record_run "a'b" "invoice.png" "invoice"
               (Some "Total due 450") "2024-05-01 10:00:00"] in
  let db := serve_all rs (init_db None) in
  recorded "a''b" rs = [] /\
  recorded "a'b" rs
  = [[Some "2024-05-01 10:00:00"; Some "invoice.png"; Some "invoice";
      Some "Total due 450"]] /\
  get_user_history "a''b" db
  = Some (Returned [[Some "2024-05-01 10:00:00"; Some "invoice.png";
                     Some "invoice"; Some "Total due 450"]], db).
Proof.
  repeat split.
Qed.

End WithHash.

Lemma add_user_twice_example :
  exists db',
    Store.add_user plain_digest "alice" "secret" (init_db None)
    = Some (Returned true, db') /\
    rows_of "alice" db'
    = [UserRow "alice" (Store.make_hashes plain_digest "secret")] /\
    (forall v, v <> "alice" -> rows_of v db' = rows_of v (init_db None)) /\
    history db' = history (init_db None) /\
    Store.add_user plain_digest "alice" "other" db'
    = Some (Returned false, db') /\
    create_account_button plain_digest "alice" "other" db'
    = Some (Returned [st_warning "Username already taken."], db') /\
    (key_ok (init_db None) ->
     forall rs v,
       length (rows_of v (Trace.serve_all plain_digest rs db')) <= 1).
Proof.
  apply (@add_user_twice plain_digest "alice" "secret" "other" (init_db None)).
  reflexivity.
Defined.

Lemma login_user_rejects_example :
  Store.login_user plain_digest "alice" "guess" one_user
  = Some (Returned [], one_user) /\
  forall s, login_button plain_digest "alice" "guess" s one_user
            = Some (Returned (s, [st_error "Incorrect Username or Password"]),
                    one_user).
Proof.
  apply (@login_user_rejects plain_digest "alice" "guess" one_user).
  right. exists (Store.make_hashes plain_digest "secret").
  split; [reflexivity | discriminate].
Defined.

Lemma add_user_then_login_example :
  Store.login_user plain_digest "alice" "secret" one_user
  = Some (Returned [[Some "alice";
                     Some (Store.make_hashes plain_digest "secret")]],
          one_user) /\
  forall s, login_button plain_digest "alice" "secret" s one_user
            = Some (Returned ({| logged_in := true; username := "alice" |},
                              []),
                    one_user).
Proof.
  apply (@add_user_then_login plain_digest "alice" "secret" (init_db None)).
  reflexivity.
Defined.

End StoreClaims.

(** ** The pipeline *)

Module PipelineFacts.
Import Sqlite Store Pipeline App Invariants.

Section WithLibraries.

Variables image fvec : Type.
Variable image_to_string : image -> outcome string.

Local Abbreviation process_document := (process_document image_to_string).
Local Abbreviation process_button := (process_button image_to_string).
Local Abbreviation summarize := (@summarize image fvec).
Local Abbreviation classify := (@classify image fvec).

Implicit Types (g : resources fvec) (img : image) (text : string)
  (log : list (event image fvec)).

(** *** [process_document], stage by stage *)

Lemma process_document_ocr_raised g img e log :
  image_to_string img = Raised e ->
  process_document g img log = (Raised e, log ++ [OcrCall fvec img]).
Proof.
  intros H. unfold Pipeline.process_document, bind, call. rewrite H.
  reflexivity.
Qed.

Lemma process_document_blank g img text log :
  image_to_string img = Returned text ->
  PyStr.strip text = "" ->
  process_document g img log
  = (Returned (None, None, "No text found"), log ++ [OcrCall fvec img]).
Proof.
  intros H E. unfold Pipeline.process_document, bind, call. rewrite H, E.
  reflexivity.
Qed.

Lemma process_document_text g img text log :
  image_to_string img = Returned text ->
  PyStr.strip text <> "" ->
  process_document g img log
  = match classify g text (log ++ [OcrCall fvec img]) with
    | (Returned category, log1) =>
        match summarize g text log1 with
        | (Returned summary, log2) =>
            (Returned (Some category, Some summary, text), log2)
        | (Raised e, log2) => (Raised e, log2)
        end
    | (Raised e, log1) => (Raised e, log1)
    end.
Proof.
  intros H E. unfold Pipeline.process_document, bind, call. rewrite H.
  destruct (PyStr.strip text) eqn:S; [contradiction|]. simpl.
  destruct (Pipeline.classify g text (log ++ [OcrCall fvec img]))
    as [[c|e] log1]; reflexivity.
Qed.

Lemma summarize_short g text log :
  PyStr.len (PyStr.slice_to 3000 text) < 50 ->
  summarize g text log = (Returned "Text too short to summarize.", log).
Proof.
  intros H. unfold Pipeline.summarize.
  apply Nat.ltb_lt in H. rewrite H. reflexivity.
Qed.

Lemma summarize_long g text log s :
  50 <= PyStr.len (PyStr.slice_to 3000 text) ->
  summarizer g = Some s ->
  summarize g text log
  = (summary_text_of
       (summarization s (PyStr.slice_to 3000 text) 130 30 false),
     log ++ [SummarizerCall image fvec (PyStr.slice_to 3000 text)
               130 30 false]).
Proof.
  intros H S. unfold Pipeline.summarize.
  apply Nat.ltb_ge in H. rewrite H, S.
  cbv [bind callable call ret raise item0 getitem summary_text_of].
  destruct (summarization s _ 130 30 false) as [[|d rest]|e]; auto.
  destruct (find _ d); reflexivity.
Qed.

(** *** The button *)

Lemma process_button_not_loaded g s filename img timestamp file :
  xgb_model g = None ->
  process_button g s filename img timestamp file
  = Some (Returned [st_error "Models failed to load."], file, []).
Proof. intros H. unfold App.process_button. rewrite H. reflexivity. Qed.

Lemma process_button_loaded g s filename img timestamp file :
  xgb_model g <> None ->
  process_button g s filename img timestamp file
  = match process_document g img [] with
    | (Raised e, log) => Some (Raised e, file, log)
    | (Returned (category, summary, _), log) =>
        if category_truthy category then
          match category with
          | Some c =>
              Some (Returned
                      [result_card c summary;
                       st_success "Analysis Complete & Saved to History!"],
                    {| users := users file;
                       history := history file ++
                         [HistoryRow (next_id file) (username s) timestamp
                            filename c summary];
                       history_seq := next_id file |},
                    log)
          | None => None
          end
        else Some (Returned [st_error "Could not read text from image."],
                   file, log)
    end.
Proof.
  intros H. unfold App.process_button.
  destruct (xgb_model g) as [m|]; [clear H | contradiction].
  destruct (Pipeline.process_document image_to_string g img [])
    as [[[[category summary] raw]|e] log]; auto.
  destruct category as [label|]; reflexivity.
Qed.

End WithLibraries.

End PipelineFacts.

(** ** The pipeline: the statements of the specification *)

Module PipelineClaims.
Import Sqlite Store Pipeline App Invariants PipelineFacts.

Lemma slice_to_prefix n s : exists rest, s = (PyStr.slice_to n s ++ rest)%string.
Proof.
  revert s. induction n as [|k IH]; intros s.
  - exists s. reflexivity.
  - destruct s as [|c r]; [exists ""; reflexivity|].
    destruct (IH r) as [rest E]. exists rest. simpl. rewrite <- E.
    reflexivity.
Qed.

Section WithLibraries.

Variables image fvec : Type.
Variable image_to_string : image -> outcome string.

Local Abbreviation process_document := (process_document image_to_string).
Local Abbreviation process_button := (process_button image_to_string).
Local Abbreviation summarize := (@summarize image fvec).

Implicit Types (g : resources fvec) (img : image) (text : string)
  (log : list (event image fvec)).

(** C1.  When the OCR text of the image is empty or white space only,
    [process_document] returns the failure tuple
    [(None, None, "No text found")] having called the OCR engine and
    nothing else (no vectorizer, classifier, label decoder or summarizer
    call); the button then shows an error and the database file is the
    one it was (no history row). *)
Theorem blank_text_fails g (s : session) (filename : string) img
  (timestamp : string) (file : database) text :
  image_to_string img = Returned text ->
  PyStr.all_space text = true ->
  process_document g img []
  = (Returned (None, None, "No text found"), [OcrCall fvec img]) /\
  process_button g s filename img timestamp file
  = match xgb_model g with
    | Some _ => Some (Returned [st_error "Could not read text from image."],
                      file, [OcrCall fvec img])
    | None => Some (Returned [st_error "Models failed to load."], file, [])
    end.
Proof.
  intros Hocr Hblank. apply PyStrFacts.strip_empty_iff in Hblank.
  pose proof (@process_document_blank _ _ _ g img text [] Hocr Hblank) as P.
  simpl in P. split; [exact P|].
  destruct (xgb_model g) as [m|] eqn:M.
  - rewrite process_button_loaded by congruence. rewrite P. reflexivity.
  - apply process_button_not_loaded, M.
Qed.

(** C2, as the code has it.  The summarizer works on the first 3000
    characters of the text.  When that prefix has fewer than 50 characters,
    white space counted, the summary is "Text too short to summarize." and
    no call is made; otherwise the model is called once, on the prefix,
    with [max_length=130], [min_length=30], [do_sample=False], and the
    summary is the [summary_text] of its first result.  A prefix whose
    trimmed length is 50 or more is in the second case. *)
Theorem summarize_policy g text log :
  let input_text := PyStr.slice_to 3000 text in
  (exists rest, text = (input_text ++ rest)%string) /\
  PyStr.len input_text <= 3000 /\
  (PyStr.len input_text < 50 ->
   summarize g text log = (Returned "Text too short to summarize.", log)) /\
  (50 <= PyStr.len input_text ->
   forall sm, summarizer g = Some sm ->
     summarize g text log
     = (summary_text_of (summarization sm input_text 130 30 false),
        log ++ [SummarizerCall image fvec input_text 130 30 false])) /\
  (50 <= PyStr.len (PyStr.strip input_text) -> 50 <= PyStr.len input_text).
Proof.
  intros input_text. repeat split.
  - apply slice_to_prefix.
  - unfold input_text. rewrite PyStrFacts.slice_to_length. lia.
  - apply summarize_short.
  - intros H sm S. apply summarize_long; assumption.
  - pose proof (PyStrFacts.strip_length_le input_text). lia.
Qed.

(** C3, as the code has it.  When the OCR engine raises on the image, the
    exception leaves [process_document] as it is, after the OCR call and
    no other; the button lets it through as well, and the database file
    is the one it was. *)
Theorem ocr_exception_propagates g (s : session) (filename : string) img
  (timestamp : string) (file : database) (e : exn) :
  image_to_string img = Raised e ->
  process_document g img [] = (Raised e, [OcrCall fvec img]) /\
  process_button g s filename img timestamp file
  = match xgb_model g with
    | Some _ => Some (Raised e, file, [OcrCall fvec img])
    | None => Some (Returned [st_error "Models failed to load."], file, [])
    end.
Proof.
  intros Hocr.
  pose proof (@process_document_ocr_raised _ _ _ g img e [] Hocr) as P.
  simpl in P. split; [exact P|].
  destruct (xgb_model g) as [m|] eqn:M.
  - rewrite process_button_loaded by congruence. rewrite P. reflexivity.
  - apply process_button_not_loaded, M.
Qed.

(** C4.  When one of the four loads raises, [load_resources] gives the
    four [None]; the button then shows "Models failed to load." for every
    image, calls no library (the OCR engine is not reached) and leaves the
    database file as it is. *)
Theorem models_unavailable (a : artifacts fvec) :
  (exists e, load_model a = Raised e \/ load_vectorizer a = Raised e \/
             load_encoder a = Raised e \/ load_summarizer a = Raised e) ->
  load_resources a = nothing_loaded fvec /\
  forall (s : session) (filename : string) img (timestamp : string)
         (file : database),
    process_button (load_resources a) s filename img timestamp file
    = Some (Returned [st_error "Models failed to load."], file, []).
Proof.
  intros (e & H).
  assert (L : load_resources a = nothing_loaded fvec).
  { unfold load_resources, and_then.
    destruct (load_model a) as [m|e1]; [|reflexivity].
    destruct (load_vectorizer a) as [v|e2]; [|reflexivity].
    destruct (load_encoder a) as [c|e3]; [|reflexivity].
    destruct (load_summarizer a) as [z|e4]; [|reflexivity].
    destruct H as [H|[H|[H|H]]]; discriminate. }
  split; [exact L|].
  intros. apply process_button_not_loaded. rewrite L. reflexivity.
Qed.

(** C10.  With OCR text [text]: a blank text gives the tuple
    [(None, None, "No text found")]; whenever [process_document] returns
    a tuple, its first component is [None] exactly when the trimmed text
    is empty, in which case the second is [None] and the third is
    "No text found", and otherwise the third is the text; it fails to
    return only when a library call of the classification or of the
    summary raises.  The button looks at the truthiness of the first
    component only: a falsy one, [None] or the empty label, shows the
    error and leaves the database file as it is, a truthy one appends one
    history row. *)
Theorem failure_encoding g img text :
  image_to_string img = Returned text ->
  (PyStr.strip text = "" ->
   process_document g img []
   = (Returned (None, None, "No text found"), [OcrCall fvec img])) /\
  (forall e log,
     process_document g img [] = (Raised e, log) ->
     PyStr.strip text <> "" /\
     (Pipeline.classify g text [OcrCall fvec img] = (Raised e, log) \/
      exists category log1,
        Pipeline.classify g text [OcrCall fvec img]
        = (Returned category, log1) /\
        summarize g text log1 = (Raised e, log))) /\
  (forall category summary third log,
     process_document g img [] = (Returned (category, summary, third), log) ->
     (category = None <-> PyStr.strip text = "") /\
     (category = None -> summary = None /\ third = "No text found") /\
     (category <> None -> summary <> None /\ third = text) /\
     forall (s : session) (filename timestamp : string) (file : database),
       xgb_model g <> None ->
       (category_truthy category = false ->
        process_button g s filename img timestamp file
        = Some (Returned [st_error "Could not read text from image."],
                file, log)) /\
       (forall label, category = Some label -> PyStr.truthy label = true ->
        process_button g s filename img timestamp file
        = Some (Returned
                  [result_card label summary;
                   st_success "Analysis Complete & Saved to History!"],
                {| users := users file;
                   history := history file ++
                     [HistoryRow (next_id file) (username s) timestamp
                        filename label summary];
                   history_seq := next_id file |},
                log))).
Proof.
  intros Hocr.
  assert (Hblank : PyStr.strip text = "" ->
                   process_document g img []
                   = (Returned (None, None, "No text found"),
                      [OcrCall fvec img])).
  { intros E. apply (@process_document_blank _ _ _ g img text [] Hocr E). }
  assert (Htext : PyStr.strip text <> "" ->
                  process_document g img []
                  = match Pipeline.classify g text [OcrCall fvec img] with
                    | (Returned category, log1) =>
                        match summarize g text log1 with
                        | (Returned summary, log2) =>
                            (Returned (Some category, Some summary, text),
                             log2)
                        | (Raised e, log2) => (Raised e, log2)
                        end
                    | (Raised e, log1) => (Raised e, log1)
                    end).
  { intros E. apply (@process_document_text _ _ _ g img text [] Hocr E). }
  split; [exact Hblank|]. split.
  - intros e log R.
    destruct (string_dec (PyStr.strip text) "") as [E|E].
    + rewrite (Hblank E) in R. discriminate.
    + split; [exact E|]. rewrite (Htext E) in R.
      destruct (Pipeline.classify g text [OcrCall fvec img])
        as [[c|e1] log1].
      * right. exists c, log1. split; [reflexivity|].
        destruct (summarize g text log1) as [[sm|e2] log2];
          [discriminate | inversion R; reflexivity].
      * left. inversion R; reflexivity.
  - intros category summary third log R.
    assert (Shape : (PyStr.strip text = "" /\ category = None /\
                     summary = None /\ third = "No text found") \/
                    (PyStr.strip text <> "" /\ third = text /\
                     exists c sm, category = Some c /\ summary = Some sm)).
    { destruct (string_dec (PyStr.strip text) "") as [E|E].
      - left. rewrite (Hblank E) in R. inversion R; subst. auto.
      - right. rewrite (Htext E) in R.
        destruct (Pipeline.classify g text [OcrCall fvec img])
          as [[c|e1] log1]; [|discriminate].
        destruct (summarize g text log1) as [[sm|e2] log2];
          [|discriminate].
        inversion R; subst. eauto 8. }
    repeat split.
    + intros C. destruct Shape as [(E & _)|(_ & _ & c & sm & C' & _)]; auto.
      congruence.
    + intros E. destruct Shape as [(_ & C & _)|(E' & _)]; auto.
      contradiction.
    + destruct Shape as [(_ & _ & S & _)|(_ & _ & c & sm & C' & _)]; auto.
      congruence.
    + destruct Shape as [(_ & _ & _ & T)|(_ & _ & c & sm & C' & _)]; auto.
      congruence.
    + destruct Shape as [(_ & C & _)|(_ & _ & c & sm & _ & S)];
        congruence.
    + destruct Shape as [(_ & C & _)|(_ & T & _)]; auto. contradiction.
    + intros F. rewrite process_button_loaded by assumption.
      rewrite R, F. reflexivity.
    + intros label -> T. rewrite process_button_loaded by assumption.
      rewrite R. simpl. rewrite T. reflexivity.
Qed.

End WithLibraries.

End PipelineClaims.

(** ** The statements on the small installation *)

Module Examples.
Import Sqlite Store Pipeline App Invariants Demo PipelineFacts PipelineClaims.

(** *** C1 *)

Lemma blank_text_fails_example :
  process_document demo_ocr (demo_resources "invoice") (Some blank_page) []
  = (Returned (None, None, "No text found"), [OcrCall nat (Some blank_page)])
  /\
  process_button demo_ocr (demo_resources "invoice") demo_session "scan.png"
    (Some blank_page) "2024-05-01 10:00:00" empty_db
  = Some (Returned [st_error "Could not read text from image."], empty_db,
          [OcrCall nat (Some blank_page)]).
Proof.
  apply (@blank_text_fails scan nat demo_ocr (demo_resources "invoice")
           demo_session "scan.png" (Some blank_page) "2024-05-01 10:00:00"
           empty_db blank_page); reflexivity.
Defined.

(** *** C2 *)

(** The claim as the specification words it, with the trimmed length, fails
    on a short line followed by blanks: the trimmed prefix has 12
    characters, and the model is called all the same, also in a whole run
    of [process_document]. *)
Lemma summarize_trimmed_length_counterexample :
  PyStr.len (PyStr.strip (PyStr.slice_to 3000 padded_line)) < 50 /\
  summarize (image:=scan) (demo_resources "invoice") padded_line []
  = (Returned "A summary.",
     [SummarizerCall scan nat padded_line 130 30 false]) /\
  summarize (image:=scan) (demo_resources "invoice") padded_line []
  <> (Returned "Text too short to summarize.", []) /\
  process_document demo_ocr (demo_resources "invoice") (Some padded_line) []
  = (Returned (Some "invoice", Some "A summary.", padded_line),
     [OcrCall nat (Some padded_line); TransformCall scan nat [padded_line];
      PredictCall scan 1; InverseTransformCall scan nat [0%Z];
      SummarizerCall scan nat padded_line 130 30 false]).
Proof.
  split; [vm_compute; lia|].
  split; [reflexivity|]. split; [discriminate | reflexivity].
Defined.

Lemma summarize_policy_example :
  summarize (image:=scan) (demo_resources "invoice") "Total due 450" []
  = (Returned "Text too short to summarize.", []) /\
  summarize (image:=scan) (demo_resources "invoice") padded_line []
  = (summary_text_of
       (summarization demo_summarizer (PyStr.slice_to 3000 padded_line)
          130 30 false),
     [SummarizerCall scan nat (PyStr.slice_to 3000 padded_line)
        130 30 false]).
Proof.
  split.
  - apply (@summarize_policy scan nat (demo_resources "invoice")
             "Total due 450" []).
    vm_compute; lia.
  - apply (@summarize_policy scan nat (demo_resources "invoice")
             padded_line []).
    + vm_compute; lia.
    + reflexivity.
Defined.

(** *** C3 *)

(** The claim as the specification words it fails on a file the OCR engine
    rejects: [process_document] returns no tuple at all, the engine's
    exception leaves it, and leaves the button handler too. *)
Lemma ocr_error_escapes_counterexample :
  process_document demo_ocr (demo_resources "invoice") None []
  = (Raised (PyExn "TypeError" "Unsupported image object"),
     [OcrCall nat None]) /\
  (forall result log,
     process_document demo_ocr (demo_resources "invoice") None []
     <> (Returned result, log)) /\
  process_button demo_ocr (demo_resources "invoice") demo_session "scan.png"
    None "2024-05-01 10:00:00" empty_db
  = Some (Raised (PyExn "TypeError" "Unsupported image object"), empty_db,
          [OcrCall nat None]).
Proof.
  split; [reflexivity|]. split; [discriminate | reflexivity].
Defined.

Lemma ocr_exception_propagates_example :
  process_document demo_ocr (demo_resources "invoice") None []
  = (Raised (PyExn "TypeError" "Unsupported image object"),
     [OcrCall nat None]) /\
  process_button demo_ocr (demo_resources "invoice") demo_session "scan.png"
    None "2024-05-01 10:00:00" empty_db
  = Some (Raised (PyExn "TypeError" "Unsupported image object"), empty_db,
          [OcrCall nat None]).
Proof.
  apply (@ocr_exception_propagates scan nat demo_ocr
           (demo_resources "invoice") demo_session "scan.png" None
           "2024-05-01 10:00:00" empty_db
           (PyExn "TypeError" "Unsupported image object")).
  reflexivity.
Defined.

(** *** C4 *)

Lemma models_unavailable_example :
  load_resources demo_artifacts = nothing_loaded nat /\
  forall (s : session) (filename : string) (img : scan) (timestamp : string)
         (file : database),
    process_button demo_ocr (load_resources demo_artifacts) s filename img
      timestamp file
    = Some (Returned [st_error "Models failed to load."], file, []).
Proof.
  apply (@models_unavailable scan nat demo_ocr demo_artifacts).
  exists (PyExn "FileNotFoundError" "tfidf_vectorizer_new.pkl").
  right. left. reflexivity.
Defined.

(** *** C10 *)

(** A label decoder whose class name is the empty string: the run returns
    a tuple with that label, the button shows the error and saves
    nothing. *)
Lemma failure_encoding_example :
  process_document demo_ocr (demo_resources "") (Some "Invoice 1023") []
  = (Returned (Some "", Some "Text too short to summarize.", "Invoice 1023"),
     [OcrCall nat (Some "Invoice 1023"); TransformCall scan nat ["Invoice 1023"];
      PredictCall scan 1; InverseTransformCall scan nat [0%Z]]) /\
  process_button demo_ocr (demo_resources "") demo_session "scan.png"
    (Some "Invoice 1023") "2024-05-01 10:00:00" empty_db
  = Some (Returned [st_error "Could not read text from image."], empty_db,
          [OcrCall nat (Some "Invoice 1023");
           TransformCall scan nat ["Invoice 1023"];
           PredictCall scan 1; InverseTransformCall scan nat [0%Z]]).
Proof.
  split; [reflexivity|].
  destruct (@failure_encoding scan nat demo_ocr (demo_resources "")
              (Some "Invoice 1023") "Invoice 1023" eq_refl) as (_ & _ & H).
  destruct (H (Some "") (Some "Text too short to summarize.") "Invoice 1023"
              [OcrCall nat (Some "Invoice 1023");
               TransformCall scan nat ["Invoice 1023"];
               PredictCall scan 1; InverseTransformCall scan nat [0%Z]]
              eq_refl) as (_ & _ & _ & B).
  apply B; [discriminate | reflexivity].
Defined.

End Examples.

(** ** More on the stores *)

Module StoreMore.
Import Sqlite Store Trace Invariants Measures SqliteFacts StoreFacts.

Lemma plain_spec u :
  plain u = true <-> PyStr.mem "'" u = false /\ PyStr.mem zero u = false.
Proof.
  unfold plain. rewrite andb_true_iff, !negb_true_iff. tauto.
Qed.

Lemma append_assoc (s t z : string) : ((s ++ t) ++ z = s ++ (t ++ z))%string.
Proof. induction s as [|c r IH]; simpl; congruence. Qed.

Lemma max_id_bound rows r : In r rows -> (h_id r <= max_id rows)%Z.
Proof.
  induction rows as [|x rest IH]; simpl; [tauto|].
  intros [->|H]; [lia|]. specialize (IH H). lia.
Qed.

Lemma max_id_le rows m :
  (0 <= m)%Z -> Forall (fun r => (h_id r <= m)%Z) rows ->
  (max_id rows <= m)%Z.
Proof.
  intros Hm. induction 1 as [|x rest Hx _ IH]; simpl; lia.
Qed.

(** A row whose id is above all the others comes first in
    [ORDER BY id DESC], the others keeping their order. *)
Lemma order_by_id_desc_snoc rows r :
  Forall (fun x => (h_id x < h_id r)%Z) rows ->
  order_by_id_desc (rows ++ [r]) = r :: order_by_id_desc rows.
Proof.
  induction 1 as [|x rest Hx _ IH]; simpl; auto.
  rewrite IH. simpl.
  destruct (Z.leb_spec (h_id r) (h_id x)); [lia | reflexivity].
Qed.

(** Reading a literal past a part without quotes. *)
Lemma string_literal_app u rest :
  PyStr.mem "'" u = false ->
  string_literal (u ++ rest)
  = match string_literal rest with
    | Some (v, t) => Some ((u ++ v)%string, t)
    | None => None
    end.
Proof.
  intros Hu. induction u as [|c r IH].
  - simpl. destruct (string_literal rest) as [[v t]|]; reflexivity.
  - cbn [PyStr.mem] in Hu. apply orb_false_iff in Hu as [Hc Hr].
    change ((String c r ++ rest)%string) with (String c (r ++ rest)).
    cbn [string_literal]. rewrite Ascii.eqb_sym in Hc. rewrite Hc.
    rewrite (IH Hr).
    destruct (string_literal rest) as [[v t]|]; reflexivity.
Qed.

(** The engine on the text of [get_user_history], in terms of the literal
    it reads. *)
Lemma get_user_history_by_literal u db :
  get_user_history u db
  = if PyStr.mem zero u then None
    else
      match string_literal (u ++ "' ORDER BY id DESC") with
      | Some (lit, tail) =>
          if (tail =? " ORDER BY id DESC")%string
          then Some (Returned (map select_columns (history_of lit db)), db)
          else None
      | None =>
          Some (Raised (PyExn "pandas.errors.DatabaseError"
                          "Execution failed on sql: sqlite3.OperationalError"),
                db)
      end.
Proof.
  unfold get_user_history, execute.
  rewrite get_user_history_text.
  change (params (get_user_history_statement u)) with (@nil value).
  change ((select_prefix ++ u ++ "' ORDER BY id DESC" =?
           "INSERT INTO users(username, password) VALUES (?,?)")%string)
    with false.
  change ((select_prefix ++ u ++ "' ORDER BY id DESC" =?
           "SELECT * FROM users WHERE username =? AND password = ?")%string)
    with false.
  change ((select_prefix ++ u ++ "' ORDER BY id DESC" =?
           "INSERT INTO history (username, timestamp, filename, category, summary) VALUES (?,?,?,?,?)")%string)
    with false.
  cbv iota.
  rewrite PyStrFacts.mem_app, PyStrFacts.mem_app.
  change (PyStr.mem zero select_prefix) with false.
  change (PyStr.mem zero "' ORDER BY id DESC") with false.
  rewrite orb_false_r. cbv [orb].
  destruct (PyStr.mem zero u); [reflexivity|].
  fold select_prefix. rewrite PyStrFacts.strip_prefix_app.
  destruct (string_literal (u ++ "' ORDER BY id DESC")) as [[lit tail]|];
    [|reflexivity].
  destruct (tail =? " ORDER BY id DESC")%string; reflexivity.
Qed.


Section WithHash.

Variable sha256_hexdigest : list byte -> string.

Local Abbreviation make_hashes := (make_hashes sha256_hexdigest).
Local Abbreviation add_user := (add_user sha256_hexdigest).
Local Abbreviation login_user := (login_user sha256_hexdigest).
Local Abbreviation serve := (serve sha256_hexdigest).
Local Abbreviation serve_all := (serve_all sha256_hexdigest).

(** One request adds rows at the end of a table, or nothing. *)
Lemma serve_appends r db :
  exists us hs,
    users (serve r db) = users db ++ us /\
    history (serve r db) = history db ++ hs.
Proof.
  destruct r as [u p|u p|u f c s t]; simpl.
  - rewrite add_user_eq. destruct (existsb _ (users db)); simpl.
    + exists [], []. rewrite !app_nil_r. auto.
    + exists [UserRow u (make_hashes p)], []. rewrite app_nil_r. auto.
  - exists [], []. rewrite !app_nil_r. auto.
  - exists [], [HistoryRow (next_id db) u t f c s]. rewrite app_nil_r. auto.
Qed.

Lemma serve_rows_of_kept r u h db :
  rows_of u db = [UserRow u h] -> rows_of u (serve r db) = [UserRow u h].
Proof.
  intros H. destruct r as [v p|v p|v f c s t]; simpl; auto.
  rewrite add_user_eq. destruct (existsb _ (users db)) eqn:E; simpl; auto.
  rewrite rows_of_added, H.
  destruct (String.eqb_spec v u) as [->|_]; [|reflexivity].
  apply existsb_rows_of in E. rewrite H in E. discriminate.
Qed.

Lemma rows_of_username u db r : In r (rows_of u db) -> u_username r = u.
Proof.
  unfold rows_of. intros H. apply filter_In in H as [_ H].
  apply String.eqb_eq, H.
Qed.

Lemma numbered_max_id db :
  numbered db -> (max_id (history db) <= history_seq db)%Z.
Proof.
  intros [Hids Hseq]. apply max_id_le; [lia|].
  apply Forall_forall. intros r Hr.
  apply (in_map h_id) in Hr. rewrite Hids in Hr.
  apply in_map_iff in Hr as (k & <- & Hk). apply in_seq in Hk. lia.
Qed.

Lemma serve_numbered r db : numbered db -> numbered (serve r db).
Proof.
  intros N. destruct r as [u p|u p|u f c s t]; simpl.
  - rewrite add_user_eq. destruct (existsb _ (users db)); exact N.
  - exact N.
  - pose proof (numbered_max_id N) as M. destruct N as [Hids Hseq].
    unfold numbered; simpl.
    assert (Hnext : next_id db = Z.of_nat (S (length (history db)))).
    { unfold next_id. lia. }
    rewrite Hnext, length_app, map_app, Hids. simpl.
    rewrite Nat.add_1_r. split; [|reflexivity].
    rewrite seq_S, map_app. reflexivity.
Qed.

Lemma serve_count r db :
  length (history (serve r db))
  = length (history db) + count_runs [r].
Proof.
  destruct r as [u p|u p|u f c s t]; simpl.
  - rewrite add_user_eq. destruct (existsb _ (users db)); simpl; lia.
  - lia.
  - rewrite length_app. reflexivity.
Qed.

End WithHash.

End StoreMore.

(** ** The stores: further statements *)

Module StoreExtras.
Import Sqlite Store Trace App Invariants Measures Demo DemoScript.
Import SqliteFacts StoreFacts StoreClaims StoreMore.

Lemma string_literal_trailing_quote a :
  PyStr.mem "'" a = false ->
  string_literal ((a ++ "'") ++ "' ORDER BY id DESC") = None.
Proof.
  intros Ha. rewrite append_assoc.
  rewrite (@string_literal_app a _ Ha). reflexivity.
Qed.

Lemma string_literal_doubled_quote a b :
  PyStr.mem "'" a = false -> PyStr.mem "'" b = false ->
  string_literal ((a ++ "''" ++ b) ++ "' ORDER BY id DESC")
  = Some ((a ++ "'" ++ b)%string, " ORDER BY id DESC").
Proof.
  intros Ha Hb. rewrite append_assoc.
  rewrite (@string_literal_app a _ Ha).
  change (("''" ++ b) ++ "' ORDER BY id DESC")%string
    with (String "'" (String "'" (b ++ "' ORDER BY id DESC"))).
  cbn [string_literal]. simpl Ascii.eqb. cbv iota.
  rewrite (@string_literal_plain b " "%char "ORDER BY id DESC" Hb)
    by discriminate.
  reflexivity.
Qed.

Section WithHash.

Variable sha256_hexdigest : list byte -> string.

Local Abbreviation make_hashes := (make_hashes sha256_hexdigest).
Local Abbreviation check_hashes := (check_hashes sha256_hexdigest).
Local Abbreviation add_user := (add_user sha256_hexdigest).
Local Abbreviation login_user := (login_user sha256_hexdigest).
Local Abbreviation serve := (serve sha256_hexdigest).
Local Abbreviation serve_all := (serve_all sha256_hexdigest).

(** X1.  The stores only ever append: after any requests, the users table
    and the history table start with the rows they had, unchanged and in
    the same order. *)
Theorem store_append_only (rs : list request) (db : database) :
  exists us hs,
    users (serve_all rs db) = users db ++ us /\
    history (serve_all rs db) = history db ++ hs.
Proof.
  revert db. induction rs as [|r rs IH]; intros db.
  - exists [], []. simpl. rewrite !app_nil_r. auto.
  - change (serve_all (r :: rs) db) with (serve_all rs (serve r db)).
    destruct (IH (serve r db)) as (us2 & hs2 & U2 & H2).
    destruct (serve_appends sha256_hexdigest r db) as (us1 & hs1 & U1 & H1).
    exists (us1 ++ us2), (hs1 ++ hs2).
    rewrite U2, H2, U1, H1, !app_assoc. auto.
Qed.

(** X2.  On a new database the history rows are numbered 1, 2, 3, ... in
    the order they were saved, [sqlite_sequence] holds the last number,
    and there is one row per recorded run. *)
Theorem fresh_history_numbering (rs : list request) :
  let db := serve_all rs (init_db None) in
  map h_id (history db) = map Z.of_nat (seq 1 (count_runs rs)) /\
  history_seq db = Z.of_nat (count_runs rs) /\
  length (history db) = count_runs rs.
Proof.
  assert (G : forall rs db,
             numbered db ->
             numbered (serve_all rs db) /\
             length (history (serve_all rs db))
             = length (history db) + count_runs rs).
  { induction rs0 as [|r rs0 IH]; intros db N.
    - simpl. split; [exact N | lia].
    - change (serve_all (r :: rs0) db) with (serve_all rs0 (serve r db)).
      destruct (IH (serve r db) (serve_numbered sha256_hexdigest r N))
        as [N' L'].
      split; [exact N'|]. rewrite L', serve_count.
      destruct r; simpl; lia. }
  intros db. destruct (G rs (init_db None)) as [[Hids Hseq] L].
  { split; reflexivity. }
  fold db in Hids, Hseq, L. simpl in L. rewrite <- L. auto.
Qed.

(** X3.  For a username without quote and NUL characters: after
    [save_history] for that username its listing is the new row followed
    by the listing as it was; after [save_history] for another username
    its listing is as it was. *)
Theorem save_history_then_get (u v f c t : string) (s : value)
  (db : database) :
  plain u = true ->
  exists rows db',
    get_user_history u db = Some (Returned rows, db) /\
    save_history v f c s t db = Some (Returned tt, db') /\
    get_user_history u db'
    = Some (Returned (if (v =? u)%string
                      then [Some t; Some f; Some c; s] :: rows
                      else rows), db').
Proof.
  intros P. apply plain_spec in P as [Hq Hz].
  eexists _, _. split; [apply (@get_user_history_plain u db Hq Hz)|].
  split; [apply save_history_eq|].
  rewrite (@get_user_history_plain u _ Hq Hz). unfold history_of. simpl.
  rewrite filter_app. simpl.
  destruct (v =? u)%string; [|rewrite app_nil_r; reflexivity].
  rewrite order_by_id_desc_snoc; [reflexivity|].
  apply Forall_forall. intros x Hx. apply filter_In in Hx as [Hx _].
  apply max_id_bound in Hx. simpl. unfold next_id. lia.
Qed.

(** X4.  For a username without quote and NUL characters, on a table
    stored by ascending id: after any requests, [get_user_history] gives
    the runs recorded for that username since, the newest first, followed
    by the listing as it was before them; the runs of other usernames do
    not show. *)
Theorem history_lists_runs_since (rs : list request) (u : string)
  (db : database) :
  plain u = true ->
  history_ok db ->
  exists rows,
    get_user_history u db = Some (Returned rows, db) /\
    get_user_history u (serve_all rs db)
    = Some (Returned (rev (recorded u rs) ++ rows), serve_all rs db).
Proof.
  intros P K. apply plain_spec in P as [Hq Hz].
  eexists. split; [apply (@get_user_history_plain u db Hq Hz)|].
  rewrite (@get_user_history_plain u _ Hq Hz). unfold history_of.
  rewrite !order_by_id_desc_rev.
  - rewrite !map_rev, serve_all_recorded, rev_app_distr. reflexivity.
  - apply ids_ascending_filter, K.
  - apply ids_ascending_filter, serve_all_history_ok, K.
Qed.

(** X5.  A stored credential never changes: once a username has its row,
    no sequence of requests, registrations under that name among them,
    alters or duplicates it, so every login attempt for it keeps its
    answer. *)
Theorem credentials_never_change (rs : list request) (u h : string)
  (db : database) :
  rows_of u db = [UserRow u h] ->
  rows_of u (serve_all rs db) = [UserRow u h] /\
  forall p data,
    login_user u p db = Some (Returned data, db) ->
    login_user u p (serve_all rs db)
    = Some (Returned data, serve_all rs db).
Proof.
  intros H.
  assert (K : rows_of u (serve_all rs db) = [UserRow u h]).
  { revert db H. induction rs as [|r rs IH]; intros db H; auto.
    change (serve_all (r :: rs) db) with (serve_all rs (serve r db)).
    apply IH, serve_rows_of_kept, H. }
  split; [exact K|].
  intros p data. rewrite !login_user_eq, !users_matching_rows_of, H, K.
  intros [= <-]. reflexivity.
Qed.

(** X6.  With the key constraint holding, [login_user] fetches no row or
    exactly the one row of the username, with the hash of the password
    given. *)
Theorem login_user_one_row (u p : string) (db : database) :
  key_ok db ->
  login_user u p db = Some (Returned [], db) \/
  login_user u p db = Some (Returned [[Some u; Some (make_hashes p)]], db).
Proof.
  intros K. rewrite login_user_eq, users_matching_rows_of.
  specialize (K u).
  pose proof (@rows_of_username u db) as Hname.
  destruct (rows_of u db) as [|r [|r2 rest]]; simpl in *; [auto| |lia].
  destruct (String.eqb_spec (u_password r) (make_hashes p)) as [E|_];
    [|auto].
  right. simpl. unfold user_columns. rewrite E, (Hname r) by auto.
  reflexivity.
Qed.

(** X7.  [check_hashes] decides what [login_user] decides: for a username
    whose row holds the hash [h], the list fetched for a password is
    truthy exactly when [check_hashes] of that password and [h] is
    [True]. *)
Theorem check_hashes_agrees_with_login (u p h : string) (db : database) :
  rows_of u db = [UserRow u h] ->
  exists data,
    login_user u p db = Some (Returned data, db) /\
    list_truthy data = check_hashes p h.
Proof.
  intros H. eexists. split; [apply login_user_eq|].
  rewrite users_matching_rows_of, H. unfold Store.check_hashes. simpl.
  rewrite (String.eqb_sym h). destruct (_ =? h)%string; reflexivity.
Qed.


(** X9.  A username with a doubled quote inside, the rest without quote
    and NUL characters, gets the listing of the username with a single
    quote there, which is another username. *)
Theorem get_user_history_reads_doubled_quote (a b : string) (db : database) :
  plain a = true -> plain b = true ->
  get_user_history (a ++ "''" ++ b) db
  = Some (Returned (map select_columns (history_of (a ++ "'" ++ b) db)), db)
  /\ (a ++ "''" ++ b)%string <> (a ++ "'" ++ b)%string.
Proof.
  intros Pa Pb. apply plain_spec in Pa as [Ha Za].
  apply plain_spec in Pb as [Hb Zb]. split.
  - rewrite get_user_history_by_literal.
    rewrite !PyStrFacts.mem_app, Za, Zb. simpl orb. cbv iota.
    rewrite (@string_literal_doubled_quote a b Ha Hb). reflexivity.
  - intros E. apply (f_equal String.length) in E.
    rewrite !PyStrFacts.length_app in E. simpl in E. lia.
Qed.

(** X10.  A username that ends with a quote, the rest without quote and
    NUL characters, gets no listing: the pasted text has an unterminated
    literal and [get_user_history] raises the [DatabaseError] of pandas,
    the database file being as it was. *)
Theorem get_user_history_trailing_quote_raises (a : string) (db : database) :
  plain a = true ->
  get_user_history (a ++ "'") db
  = Some (Raised (PyExn "pandas.errors.DatabaseError"
                    "Execution failed on sql: sqlite3.OperationalError"),
          db).
Proof.
  intros Pa. apply plain_spec in Pa as [Ha Za].
  rewrite get_user_history_by_literal.
  rewrite PyStrFacts.mem_app, Za. simpl orb. cbv iota.
  rewrite (@string_literal_trailing_quote a Ha). reflexivity.
Qed.

(** X21.  History ids are never reused: [save_history] numbers its row
    above every id in the table (and above [sqlite_sequence]), so a table
    whose ids are distinct keeps distinct ids through any requests. *)
Theorem history_ids_stay_distinct (rs : list request) (db : database) :
  NoDup (map h_id (history db)) ->
  NoDup (map h_id (history (serve_all rs db))).
Proof.
  revert db. induction rs as [|r rs IH]; intros db N; auto.
  change (serve_all (r :: rs) db) with (serve_all rs (serve r db)).
  apply IH. destruct r as [u p|u p|u f c s t]; simpl.
  - rewrite add_user_eq. destruct (existsb _ (users db)); exact N.
  - exact N.
  - rewrite map_app. simpl. apply NoDup_app; [exact N | repeat constructor; auto |].
    intros x Hx [<-|[]]. apply in_map_iff in Hx as (row & E & Hrow).
    apply max_id_bound in Hrow. unfold next_id in E. lia.
Qed.

End WithHash.

(** *** On the small installation *)

Lemma save_history_then_get_example :
  exists rows db',
    get_user_history "alice" one_user = Some (Returned rows, one_user) /\
    save_history "alice" "a.png" "invoice" (Some "First.")
      "2024-05-01 10:00:00" one_user = Some (Returned tt, db') /\
    get_user_history "alice" db'
    = Some (Returned
              ([Some "2024-05-01 10:00:00"; Some "a.png"; Some "invoice";
                Some "First."] :: rows), db').
Proof.
  apply (@save_history_then_get "alice" "alice" "a.png" "invoice"
           "2024-05-01 10:00:00" (Some "First.") one_user).
  reflexivity.
Defined.

Lemma history_lists_runs_since_example :
  exists rows,
    get_user_history "alice" one_user = Some (Returned rows, one_user) /\
    get_user_history "alice" (Trace.serve_all plain_digest two_runs one_user)
    = Some (Returned (rev (recorded "alice" two_runs) ++ rows),
            Trace.serve_all plain_digest two_runs one_user).
Proof.
  apply (@history_lists_runs_since plain_digest two_runs "alice" one_user).
  - reflexivity.
  - constructor.
Defined.

Lemma credentials_never_change_example :
  rows_of "alice" (Trace.serve_all plain_digest two_runs one_user)
  = [UserRow "alice" (Store.make_hashes plain_digest "secret")] /\
  forall p data,
    Store.login_user plain_digest "alice" p one_user
    = Some (Returned data, one_user) ->
    Store.login_user plain_digest "alice" p
      (Trace.serve_all plain_digest two_runs one_user)
    = Some (Returned data, Trace.serve_all plain_digest two_runs one_user).
Proof.
  apply (@credentials_never_change plain_digest two_runs "alice"
           (Store.make_hashes plain_digest "secret") one_user).
  reflexivity.
Defined.

Lemma login_user_one_row_example :
  Store.login_user plain_digest "alice" "secret" one_user
  = Some (Returned [], one_user) \/
  Store.login_user plain_digest "alice" "secret" one_user
  = Some (Returned [[Some "alice";
                     Some (Store.make_hashes plain_digest "secret")]],
          one_user).
Proof.
  apply (@login_user_one_row plain_digest "alice" "secret" one_user).
  intros u. unfold rows_of.
  change (users one_user)
    with [UserRow "alice" (Store.make_hashes plain_digest "secret")].
  cbn [filter u_username].
  destruct (String.eqb "alice" u); simpl; lia.
Defined.

Lemma check_hashes_agrees_with_login_example :
  exists data,
    Store.login_user plain_digest "alice" "guess" one_user
    = Some (Returned data, one_user) /\
    list_truthy data
    = Store.check_hashes plain_digest "guess"
        (Store.make_hashes plain_digest "secret").
Proof.
  apply (@check_hashes_agrees_with_login plain_digest "alice" "guess"
           (Store.make_hashes plain_digest "secret") one_user).
  reflexivity.
Defined.

Lemma history_ids_stay_distinct_example :
  NoDup (map h_id
           (history (Trace.serve_all plain_digest two_runs one_user))).
Proof.
  apply (@history_ids_stay_distinct plain_digest two_runs one_user).
  constructor.
Defined.


Lemma get_user_history_reads_doubled_quote_example :
  get_user_history ("o" ++ "''" ++ "brien") one_user
  = Some (Returned
            (map select_columns (history_of ("o" ++ "'" ++ "brien") one_user)),
          one_user)
  /\ ("o" ++ "''" ++ "brien")%string <> ("o" ++ "'" ++ "brien")%string.
Proof.
  apply (@get_user_history_reads_doubled_quote "o" "brien" one_user);
    reflexivity.
Defined.

Lemma get_user_history_trailing_quote_raises_example :
  get_user_history ("dev" ++ "'") one_user
  = Some (Raised (PyExn "pandas.errors.DatabaseError"
                    "Execution failed on sql: sqlite3.OperationalError"),
          one_user).
Proof.
  apply (@get_user_history_trailing_quote_raises "dev" one_user).
  reflexivity.
Defined.

End StoreExtras.

(** ** Password bytes *)

Module HashExtras.
Import Store Measures Demo.

Lemma forall_bool_spec f : forall_bool f = true -> forall b, f b = true.
Proof.
  unfold forall_bool. intros H. apply andb_true_iff in H as [Ht Hf].
  intros []; assumption.
Qed.

Lemma forall_ascii_spec f : forall_ascii f = true -> forall c, f c = true.
Proof.
  unfold forall_ascii. intros H [b0 b1 b2 b3 b4 b5 b6 b7].
  pose proof (forall_bool_spec _ H b0) as H0. cbv beta in H0.
  pose proof (forall_bool_spec _ H0 b1) as H1. cbv beta in H1.
  pose proof (forall_bool_spec _ H1 b2) as H2. cbv beta in H2.
  pose proof (forall_bool_spec _ H2 b3) as H3. cbv beta in H3.
  pose proof (forall_bool_spec _ H3 b4) as H4. cbv beta in H4.
  pose proof (forall_bool_spec _ H4 b5) as H5. cbv beta in H5.
  pose proof (forall_bool_spec _ H5 b6) as H6. cbv beta in H6.
  exact (forall_bool_spec _ H6 b7).
Qed.

Lemma prefixb_app (l1 l2 r1 r2 : list byte) :
  l1 ++ r1 = l2 ++ r2 -> prefixb l1 l2 || prefixb l2 l1 = true.
Proof.
  revert l2. induction l1 as [|a l1 IH]; intros [|b l2] H; simpl; auto.
  simpl in H. injection H as -> H.
  rewrite (Byte.byte_dec_lb eq_refl). simpl. apply IH, H.
Qed.

(** The encodings of two different characters: neither starts the other. *)
Lemma encode_char_prefix_free c d :
  Ascii.eqb c d
  || negb (prefixb (PyStr.encode_char c) (PyStr.encode_char d)
           || prefixb (PyStr.encode_char d) (PyStr.encode_char c)) = true.
Proof.
  revert d. apply (forall_ascii_spec (fun d => _)).
  revert c. apply (forall_ascii_spec (fun c => forall_ascii (fun d => _))).
  vm_compute. reflexivity.
Qed.

(** [str.encode] gives different bytes to different strings. *)
Lemma encode_injective s t : PyStr.encode s = PyStr.encode t -> s = t.
Proof.
  revert t. induction s as [|c r IH]; intros [|d t] H; auto.
  - simpl in H. unfold PyStr.encode_char in H.
    destruct (N_of_ascii d <? 128)%N; discriminate.
  - simpl in H. unfold PyStr.encode_char in H.
    destruct (N_of_ascii c <? 128)%N; discriminate.
  - simpl in H. pose proof (prefixb_app _ _ _ _ H) as P.
    pose proof (encode_char_prefix_free c d) as F. rewrite P in F.
    rewrite orb_false_r in F. apply Ascii.eqb_eq in F. subst d.
    apply app_inv_head in H. f_equal. apply IH, H.
Qed.

(** X11.  [make_hashes] hashes the UTF-8 bytes of the password, and
    different passwords have different bytes: two different passwords get
    different hashes unless the digest collides on their encodings. *)
Theorem make_hashes_distinguishes (sha256_hexdigest : list byte -> string)
  (p q : string) :
  p <> q ->
  (PyStr.encode p <> PyStr.encode q ->
   sha256_hexdigest (PyStr.encode p) <> sha256_hexdigest (PyStr.encode q)) ->
  make_hashes sha256_hexdigest p <> make_hashes sha256_hexdigest q.
Proof.
  unfold make_hashes. intros N NoCollision. apply NoCollision.
  intros E. apply N, encode_injective, E.
Qed.

Lemma make_hashes_distinguishes_example :
  make_hashes plain_digest "secret" <> make_hashes plain_digest "guess".
Proof.
  apply (@make_hashes_distinguishes plain_digest "secret" "guess").
  - discriminate.
  - intros _. vm_compute. discriminate.
Defined.

End HashExtras.

(** ** The pipeline: further statements *)

Module PipelineExtras.
Import Sqlite Store Pipeline App Invariants Measures Demo DemoScript.
Import PipelineFacts.

(** A goal on a log that is known in full. *)
Ltac closed_log := simpl; split; [reflexivity | lia].

Section WithLibraries.

Variables image fvec : Type.
Variable image_to_string : image -> outcome string.

Local Abbreviation process_document := (process_document image_to_string).
Local Abbreviation process_button := (process_button image_to_string).
Local Abbreviation summarize := (@summarize image fvec).

Implicit Types (g : resources fvec) (img : image) (text : string)
  (log : list (event image fvec)).

(** X12.  Whatever the libraries answer, one run of [process_document]
    calls them in the order OCR, vectorizer, classifier, label decoder,
    summarizer, each at most once and none skipped before a later one:
    the calls made are a beginning of that sequence, the OCR call always
    among them. *)
Theorem calls_in_order g img :
  let log := snd (process_document g img []) in
  map stage log = seq 0 (length log) /\ 1 <= length log <= 5.
Proof.
  cbv [Pipeline.process_document Pipeline.classify Pipeline.summarize
       bind call ret raise attr callable item0 getitem].
  destruct (image_to_string img) as [text|e]; [|closed_log].
  destruct (negb (PyStr.truthy (PyStr.strip text))); [closed_log|].
  destruct (tfidf_vectorizer g) as [vz|]; [|closed_log].
  destruct (transform vz [text]) as [v|e]; [|closed_log].
  destruct (xgb_model g) as [m|]; [|closed_log].
  destruct (predict m v) as [[|i rest]|e]; [closed_log| |closed_log].
  destruct (label_encoder g) as [enc|]; [|closed_log].
  destruct (inverse_transform enc [i]) as [[|label ls]|e];
    [closed_log| |closed_log].
  destruct (PyStr.len (PyStr.slice_to 3000 text) <? 50)%nat; [closed_log|].
  destruct (summarizer g) as [sm|]; [|closed_log].
  destruct (summarization sm _ 130 30 false) as [[|d ds]|e];
    [closed_log| |closed_log].
  destruct (find _ d); closed_log.
Qed.

(** X13.  The whole run on a readable page: when the OCR text is not
    blank, the vectorizer, the classifier (at least one index) and the
    label decoder (at least one label, a non-empty one) return, and the
    summary stage returns, the button shows the result card and the
    success message and appends exactly one history row: the next id, the
    session's username, the clock reading, the file name, the label, the
    summary. *)
Theorem process_button_success g (s : session) (filename timestamp : string)
  img (file : database) text
  (vz : Vectorizer fvec) (m : Classifier fvec) (enc : LabelEncoder)
  (v : fvec) (i : Z) (indices : list Z) (label : string)
  (labels : list string) (summary : string) log :
  image_to_string img = Returned text ->
  PyStr.strip text <> "" ->
  tfidf_vectorizer g = Some vz -> transform vz [text] = Returned v ->
  xgb_model g = Some m -> predict m v = Returned (i :: indices) ->
  label_encoder g = Some enc ->
  inverse_transform enc [i] = Returned (label :: labels) ->
  PyStr.truthy label = true ->
  summarize g text
    [OcrCall fvec img; TransformCall image fvec [text];
     PredictCall image v; InverseTransformCall image fvec [i]]
  = (Returned summary, log) ->
  process_document g img [] = (Returned (Some label, Some summary, text), log)
  /\
  process_button g s filename img timestamp file
  = Some (Returned [result_card label (Some summary);
                    st_success "Analysis Complete & Saved to History!"],
          {| users := users file;
             history := history file ++
               [HistoryRow (next_id file) (username s) timestamp filename
                  label (Some summary)];
             history_seq := next_id file |},
          log).
Proof.
  intros Hocr Htext Hvz Htr Hm Hpred Henc Hinv Hlabel Hsum.
  assert (P : process_document g img []
              = (Returned (Some label, Some summary, text), log)).
  { rewrite (@process_document_text _ _ _ g img text [] Hocr Htext).
    unfold Pipeline.classify, bind, call, attr, item0, ret.
    rewrite Hvz, Htr, Hm, Hpred, Henc, Hinv. simpl. rewrite Hsum.
    reflexivity. }
  split; [exact P|].
  rewrite process_button_loaded by congruence.
  rewrite P. simpl. rewrite Hlabel. reflexivity.
Qed.

(** X14.  What the button can do to the database: it always answers; the
    users table is never touched; the file is left as it was, or gets
    exactly one history row under the session's username with a non-empty
    label, and then the success message is shown; an exception leaves the
    file as it was. *)
Theorem process_button_effect g (s : session) (filename timestamp : string)
  img (file : database) :
  exists r file' log,
    process_button g s filename img timestamp file = Some (r, file', log) /\
    users file' = users file /\
    (file' = file \/
     exists label summary,
       PyStr.truthy label = true /\
       r = Returned [result_card label summary;
                     st_success "Analysis Complete & Saved to History!"] /\
       history file'
       = history file ++
         [HistoryRow (next_id file) (username s) timestamp filename label
            summary]) /\
    (forall e, r = Raised e -> file' = file).
Proof.
  destruct (xgb_model g) as [m|] eqn:M.
  - rewrite process_button_loaded by congruence.
    destruct (process_document g img [])
      as [[[[category summary] third]|e] log].
    + destruct category as [label|]; simpl.
      * destruct (PyStr.truthy label) eqn:T.
        -- eexists _, _, _. split; [reflexivity|]. split; [reflexivity|].
           split; [|discriminate].
           right. exists label, summary. auto.
        -- eexists _, _, _. split; [reflexivity|]. auto.
      * eexists _, _, _. split; [reflexivity|]. auto.
    + eexists _, _, _. split; [reflexivity|]. auto.
  - rewrite process_button_not_loaded by assumption.
    eexists _, _, _. split; [reflexivity|]. auto.
Qed.

(** X15.  [load_resources] is all or nothing: the classifier name holds an
    object only when the four loads returned, and then the four names
    hold the four objects loaded; otherwise the four names hold [None].
    So the test of the classifier name alone in [main] stands for the
    four. *)
Theorem load_resources_all_or_nothing (a : artifacts fvec) :
  (forall m, xgb_model (load_resources a) = Some m ->
     exists vz enc sm,
       load_model a = Returned m /\ load_vectorizer a = Returned vz /\
       load_encoder a = Returned enc /\ load_summarizer a = Returned sm /\
       load_resources a
       = {| xgb_model := Some m; tfidf_vectorizer := Some vz;
            label_encoder := Some enc; summarizer := Some sm |}) /\
  (xgb_model (load_resources a) = None ->
   load_resources a = nothing_loaded fvec).
Proof.
  unfold load_resources, and_then.
  destruct (load_model a) as [m0|e1]; [|split; [discriminate|reflexivity]].
  destruct (load_vectorizer a) as [vz|e2];
    [|split; [discriminate|reflexivity]].
  destruct (load_encoder a) as [enc|e3];
    [|split; [discriminate|reflexivity]].
  destruct (load_summarizer a) as [sm|e4];
    [|split; [discriminate|reflexivity]].
  simpl. split; [|discriminate].
  intros m [= <-]. exists vz, enc, sm. auto.
Qed.

End WithLibraries.

(** *** On the small installation *)

Lemma process_button_success_example :
  process_document demo_ocr (demo_resources "invoice")
    (Some "Invoice 1023 total due 450") []
  = (Returned (Some "invoice", Some "Text too short to summarize.",
               "Invoice 1023 total due 450"),
     [OcrCall nat (Some "Invoice 1023 total due 450");
      TransformCall scan nat ["Invoice 1023 total due 450"];
      PredictCall scan 1; InverseTransformCall scan nat [0%Z]]) /\
  process_button demo_ocr (demo_resources "invoice") demo_session "scan.png"
    (Some "Invoice 1023 total due 450") "2024-05-01 10:00:00" one_user
  = Some (Returned [result_card "invoice"
                      (Some "Text too short to summarize.");
                    st_success "Analysis Complete & Saved to History!"],
          {| users := users one_user;
             history := history one_user ++
               [HistoryRow (next_id one_user) (username demo_session)
                  "2024-05-01 10:00:00" "scan.png" "invoice"
                  (Some "Text too short to summarize.")];
             history_seq := next_id one_user |},
          [OcrCall nat (Some "Invoice 1023 total due 450");
           TransformCall scan nat ["Invoice 1023 total due 450"];
           PredictCall scan 1; InverseTransformCall scan nat [0%Z]]).
Proof.
  apply (@process_button_success scan nat demo_ocr (demo_resources "invoice")
           demo_session "scan.png" "2024-05-01 10:00:00"
           (Some "Invoice 1023 total due 450") one_user
           "Invoice 1023 total due 450" demo_vectorizer demo_model
           (demo_encoder "invoice") 1 0%Z [] "invoice" []);
    try reflexivity.
  discriminate.
Defined.

Lemma load_resources_all_or_nothing_example :
  exists vz enc sm,
    load_model demo_artifacts_loaded = Returned demo_model /\
    load_vectorizer demo_artifacts_loaded = Returned vz /\
    load_encoder demo_artifacts_loaded = Returned enc /\
    load_summarizer demo_artifacts_loaded = Returned sm /\
    load_resources demo_artifacts_loaded
    = {| xgb_model := Some demo_model; tfidf_vectorizer := Some vz;
         label_encoder := Some enc; summarizer := Some sm |}.
Proof.
  apply (proj1 (@load_resources_all_or_nothing nat demo_artifacts_loaded)).
  reflexivity.
Defined.

End PipelineExtras.

(** ** One run of the script *)

Module ScriptFacts.
Import Sqlite Store Pipeline App Script Invariants Measures.
Import StoreFacts StoreClaims StoreMore PipelineFacts.


(** A truthy answer of [login_user] comes from a row of the table. *)
Lemma users_matching_in u h db :
  users_matching u h db <> [] -> In (UserRow u h) (users db).
Proof.
  unfold users_matching. intros N.
  destruct (filter _ (users db)) as [|r rest] eqn:F; [contradiction|].
  assert (I : In r (filter (fun r => (u_username r =? u)%string
                                     && (u_password r =? h)%string)
                      (users db))) by (rewrite F; left; reflexivity).
  apply filter_In in I as [I E]. apply andb_true_iff in E as [Eu Eh].
  apply String.eqb_eq in Eu, Eh. destruct r as [ru rh]. simpl in *.
  subst. exact I.
Qed.

Section WithLibraries.

Variable sha256_hexdigest : list byte -> string.
Variables image fvec : Type.
Variable image_to_string : image -> outcome string.
Variable upload : Type.
Variable upload_name : upload -> string.
Variable image_open : upload -> outcome image.

Local Abbreviation main :=
  (main sha256_hexdigest image_to_string upload_name image_open).
Local Abbreviation process_button := (process_button image_to_string).

Implicit Types (g : resources fvec) (s : session) (w : widgets upload)
  (file : database).

(** The dashboard, once the sidebar query has answered. *)
Lemma main_dashboard g s w timestamp file history_df :
  logged_in s = true ->
  pressed w <> Some LogOutButton ->
  get_user_history (username s) file = Some (Returned history_df, file) ->
  main g s w timestamp file
  = match uploaded_file w with
    | Some uploaded =>
        match image_open uploaded with
        | Returned img =>
            match pressed w with
            | Some ProcessButton =>
                match process_button g s (upload_name uploaded) img
                        timestamp file with
                | Some (Returned msgs, file2, log) =>
                    Some (Returned
                            (s, {| sidebar := Some (side_of history_df);
                                   body := msgs |}),
                          file2, log)
                | Some (Raised e, file2, log) => Some (Raised e, file2, log)
                | None => None
                end
            | _ =>
                Some (Returned
                        (s, {| sidebar := Some (side_of history_df);
                               body := [] |}),
                      file, [])
            end
        | Raised e => Some (Raised e, file, [])
        end
    | None =>
        Some (Returned
                (s, {| sidebar := Some (side_of history_df); body := [] |}),
              file, [])
    end.
Proof.
  intros L P H. unfold Script.main. rewrite L, H. simpl.
  destruct (pressed w) as [[]|]; try reflexivity. contradiction.
Qed.

Lemma main_dashboard_raises g s w timestamp file e :
  logged_in s = true ->
  pressed w <> Some LogOutButton ->
  get_user_history (username s) file = Some (Raised e, file) ->
  main g s w timestamp file = Some (Raised e, file, []).
Proof.
  intros L P H. unfold Script.main. rewrite L, H. simpl.
  destruct (pressed w) as [[]|]; try reflexivity. contradiction.
Qed.

End WithLibraries.

End ScriptFacts.

(** ** One run of the script: further statements *)

Module ScriptExtras.
Import Sqlite Store Pipeline App Script Invariants Measures Demo DemoScript.
Import StoreFacts StoreClaims StoreMore PipelineFacts ScriptFacts.

(** A run of the login screen that leaves the session and the file as
    they were. *)
Ltac screen_unchanged L :=
  eexists _, _; split; [reflexivity|];
  split; [reflexivity|]; split; [reflexivity|];
  let s' := fresh "s'" in
  let pg := fresh "pg" in
  let E := fresh "E" in
  let L' := fresh "L'" in
  intros s' pg E; injection E as <- <-; split; [reflexivity|];
  intros L'; congruence.

Section WithLibraries.

Variable sha256_hexdigest : list byte -> string.
Variables image fvec : Type.
Variable image_to_string : image -> outcome string.
Variable upload : Type.
Variable upload_name : upload -> string.
Variable image_open : upload -> outcome image.

Local Abbreviation main :=
  (main sha256_hexdigest image_to_string upload_name image_open).
Local Abbreviation script_run :=
  (script_run sha256_hexdigest image_to_string upload_name image_open).
Local Abbreviation process_button := (process_button image_to_string).
Local Abbreviation process_document := (process_document image_to_string).
Local Abbreviation make_hashes := (make_hashes sha256_hexdigest).

Implicit Types (g : resources fvec) (s : session) (w : widgets upload)
  (file : database).

(** X16.  A run with the session not logged in: no library is called and
    the history table is as it was; the file changes at most through the
    "Create Account" button; nothing is put in the sidebar; and the
    session comes out logged in only after a press of "Login" with a
    username and a password whose hash are a row of the users table,
    under that username. *)
Theorem logged_out_run g s w (timestamp : string) file :
  logged_in s = false ->
  exists r file',
    main g s w timestamp file = Some (r, file', []) /\
    history file' = history file /\
    (pressed w <> Some CreateAccountButton -> file' = file) /\
    forall s' pg,
      r = Returned (s', pg) ->
      sidebar pg = None /\
      (logged_in s' = true ->
       pressed w = Some LoginButton /\
       username s' = username_input w /\
       In (UserRow (username_input w) (make_hashes (password_input w)))
          (users file)).
Proof.
  intros L. unfold Script.main. rewrite L. simpl.
  destruct (choice w =? "Login")%string.
  - destruct (pressed w) as [[]|]; try (screen_unchanged L).
    unfold login_button. rewrite login_user_eq.
    destruct (users_matching _ _ file) as [|r0 rest] eqn:U; simpl;
      [screen_unchanged L|].
    eexists _, _. split; [reflexivity|].
    split; [reflexivity|]. split; [reflexivity|].
    intros s' pg E. injection E as <- <-. split; [reflexivity|].
    intros _. simpl. repeat split.
    apply users_matching_in. rewrite U. discriminate.
  - destruct (pressed w) as [[]|]; try (screen_unchanged L).
    unfold create_account_button. rewrite add_user_eq.
    destruct (existsb _ (users file)); simpl; [screen_unchanged L|].
    eexists _, _. split; [reflexivity|].
    split; [reflexivity|]. split; [intros N; contradiction|].
    intros s' pg E. injection E as <- <-. split; [reflexivity|].
    intros L'. congruence.
Qed.


(** X18.  The sidebar is one run behind.  In the run that processes a
    document and saves its record (a username without quote and NUL
    characters), the sidebar lists the history as it was before, next to
    the success message; a later run without a press, the file still in
    the uploader, lists the new record first: time, label, file name. *)
Theorem sidebar_one_run_behind g s w (timestamp : string) file
  (uploaded : upload) (img : image) (label third : string)
  (summary : option string) log :
  logged_in s = true ->
  plain (username s) = true ->
  uploaded_file w = Some uploaded ->
  image_open uploaded = Returned img ->
  pressed w = Some ProcessButton ->
  xgb_model g <> None ->
  process_document g img [] = (Returned (Some label, summary, third), log) ->
  PyStr.truthy label = true ->
  let before := map select_columns (history_of (username s) file) in
  let file2 :=
    {| users := users file;
       history := history file ++
         [HistoryRow (next_id file) (username s) timestamp
            (upload_name uploaded) label summary];
       history_seq := next_id file |} in
  main g s w timestamp file
  = Some (Returned
            (s, {| sidebar := Some (side_of before);
                   body := [result_card label summary;
                            st_success
                              "Analysis Complete & Saved to History!"] |}),
          file2, log) /\
  forall w' (timestamp' : string),
    pressed w' = None ->
    uploaded_file w' = Some uploaded ->
    main g s w' timestamp' file2
    = Some (Returned
              (s, {| sidebar :=
                       Some (HistoryTable
                               ([Some timestamp; Some label;
                                 Some (upload_name uploaded)]
                                :: map sidebar_columns before));
                     body := [] |}),
            file2, []).
Proof.
  intros L P U O B M D T before file2.
  apply plain_spec in P as [Hq Hz].
  assert (Q : forall db, get_user_history (username s) db
                         = Some (Returned
                                   (map select_columns
                                      (history_of (username s) db)), db)).
  { intros db. apply get_user_history_plain; assumption. }
  split.
  - rewrite main_dashboard with (history_df := before);
      [|exact L | rewrite B; discriminate | apply Q].
    rewrite U, O, B.
    rewrite process_button_loaded by assumption.
    rewrite D. simpl. rewrite T. reflexivity.
  - intros w' timestamp' N U'.
    rewrite main_dashboard
      with (history_df := map select_columns (history_of (username s) file2));
      [|exact L | rewrite N; discriminate | apply Q].
    assert (H2 : map select_columns (history_of (username s) file2)
                 = [Some timestamp; Some (upload_name uploaded); Some label;
                    summary] :: before).
    { unfold history_of, file2. simpl. rewrite filter_app. simpl.
      rewrite String.eqb_refl.
      rewrite order_by_id_desc_snoc; [reflexivity|].
      apply Forall_forall. intros x Hx. apply filter_In in Hx as [Hx _].
      apply max_id_bound in Hx. simpl. unfold next_id. lia. }
    rewrite H2, N, U', O. reflexivity.
Qed.

(** X19.  An account whose name ends with a quote (the rest without quote
    and NUL characters) cannot use the dashboard: every logged-in run
    other than "Log Out" raises the [DatabaseError] of the sidebar query
    before the uploader is reached, with no library call and the file as
    it was. *)
Theorem dashboard_raises_on_trailing_quote g s w (timestamp : string) file
  (a : string) :
  logged_in s = true ->
  username s = (a ++ "'")%string ->
  plain a = true ->
  pressed w <> Some LogOutButton ->
  main g s w timestamp file
  = Some (Raised (PyExn "pandas.errors.DatabaseError"
                    "Execution failed on sql: sqlite3.OperationalError"),
          file, []).
Proof.
  intros L U P N. apply plain_spec in P as [Hq Hz].
  apply main_dashboard_raises; auto.
  rewrite U, get_user_history_by_literal.
  rewrite PyStrFacts.mem_app, Hz. simpl orb. cbv iota.
  rewrite append_assoc, (@string_literal_app a _ Hq). reflexivity.
Qed.

(** X20.  The model artifacts matter to the process button only: a run of
    the script in which that button is not pressed gives the same page,
    session and database whatever the loading of the artifacts did. *)
Theorem script_run_without_models (a a' : artifacts fvec)
  (state : option session) w (timestamp : string)
  (file : option database) :
  pressed w <> Some ProcessButton ->
  script_run a state w timestamp file = script_run a' state w timestamp file.
Proof.
  intros N. unfold Script.script_run, Script.main.
  destruct (negb (logged_in _)); [reflexivity|].
  destruct (pressed w) as [[]|]; try reflexivity. contradiction.
Qed.

(** X22.  Sign-up then login through the page.  With the session not
    logged in and the username free, "Create Account" adds the credential
    and shows the success message; "Login" with the same name and
    password then marks the session logged in under that name.  No library
    is called and the history is not touched. *)
Theorem sign_up_then_login g s w1 w2 (t1 t2 : string) file :
  logged_in s = false ->
  rows_of (username_input w1) file = [] ->
  (choice w1 =? "Login")%string = false ->
  pressed w1 = Some CreateAccountButton ->
  choice w2 = "Login" ->
  pressed w2 = Some LoginButton ->
  username_input w2 = username_input w1 ->
  password_input w2 = password_input w1 ->
  exists file1,
    main g s w1 t1 file
    = Some (Returned
              (s, {| sidebar := None;
                     body := [st_success "Account Created! Please Login."] |}),
            file1, []) /\
    users file1
    = users file ++
      [UserRow (username_input w1) (make_hashes (password_input w1))] /\
    history file1 = history file /\
    main g s w2 t2 file1
    = Some (Returned
              ({| logged_in := true; username := username_input w1 |},
               {| sidebar := None; body := [] |}),
            file1, []).
Proof.
  intros L New C1 P1 C2 P2 U2 W2.
  apply existsb_rows_of in New.
  exists (with_users file
            (users file ++
             [UserRow (username_input w1)
                (make_hashes (password_input w1))])).
  repeat split.
  - unfold Script.main. rewrite L, C1, P1. simpl.
    unfold create_account_button. rewrite add_user_eq, New. reflexivity.
  - unfold Script.main. rewrite L, C2, P2, U2, W2. simpl.
    unfold login_button.
    rewrite login_user_eq, users_matching_rows_of, rows_of_added.
    apply existsb_rows_of in New. rewrite New, String.eqb_refl. simpl.
    rewrite String.eqb_refl. reflexivity.
Qed.

End WithLibraries.

(** *** On the small installation *)

Local Abbreviation demo_main :=
  (main plain_digest demo_ocr demo_name demo_open).

Lemma logged_out_run_example :
  exists r file',
    demo_main (demo_resources "invoice") initial_session widgets_login
      "2024-05-01 10:00:00" one_user = Some (r, file', []) /\
    history file' = history one_user /\
    (pressed widgets_login <> Some CreateAccountButton -> file' = one_user) /\
    forall s' pg,
      r = Returned (s', pg) ->
      sidebar pg = None /\
      (logged_in s' = true ->
       pressed widgets_login = Some LoginButton /\
       username s' = username_input widgets_login /\
       In (UserRow (username_input widgets_login)
             (make_hashes plain_digest (password_input widgets_login)))
          (users one_user)).
Proof.
  apply (@logged_out_run plain_digest scan nat demo_ocr demo_upload
           demo_name demo_open (demo_resources "invoice") initial_session
           widgets_login "2024-05-01 10:00:00" one_user).
  reflexivity.
Defined.


(** The first record of alice: the page says it is saved, next to
    "No history yet."; the sidebar has it on the next run. *)
Lemma sidebar_one_run_behind_example :
  let file2 :=
    {| users := users one_user;
       history := [HistoryRow 1 "alice" "2024-05-01 10:00:00" "scan.png"
                     "invoice" (Some "Text too short to summarize.")];
       history_seq := 1 |} in
  demo_main (demo_resources "invoice") demo_session widgets_process
    "2024-05-01 10:00:00" one_user
  = Some (Returned
            (demo_session,
             {| sidebar := Some NoHistoryYet;
                body := [result_card "invoice"
                           (Some "Text too short to summarize.");
                         st_success
                           "Analysis Complete & Saved to History!"] |}),
          file2,
          [OcrCall nat (Some "Invoice 1023 total due 450");
           TransformCall scan nat ["Invoice 1023 total due 450"];
           PredictCall scan 1; InverseTransformCall scan nat [0%Z]]) /\
  demo_main (demo_resources "invoice") demo_session
    {| choice := "Login"; username_input := ""; password_input := "";
       uploaded_file := Some ("scan.png", Some "Invoice 1023 total due 450");
       pressed := None |}
    "2024-05-01 10:01:00" file2
  = Some (Returned
            (demo_session,
             {| sidebar :=
                  Some (HistoryTable
                          [[Some "2024-05-01 10:00:00"; Some "invoice";
                            Some "scan.png"]]);
                body := [] |}),
          file2, []).
Proof.
  intros file2.
  pose proof (@sidebar_one_run_behind plain_digest scan nat demo_ocr
                demo_upload demo_name demo_open (demo_resources "invoice")
                demo_session widgets_process "2024-05-01 10:00:00" one_user
                ("scan.png", Some "Invoice 1023 total due 450")
                (Some "Invoice 1023 total due 450") "invoice"
                "Invoice 1023 total due 450"
                (Some "Text too short to summarize.")
                [OcrCall nat (Some "Invoice 1023 total due 450");
                 TransformCall scan nat ["Invoice 1023 total due 450"];
                 PredictCall scan 1; InverseTransformCall scan nat [0%Z]]
                eq_refl eq_refl eq_refl eq_refl eq_refl) as H.
  cbv zeta in H. destruct H as [H1 H2];
    [discriminate | reflexivity | reflexivity |].
  split; [exact H1|].
  apply H2; reflexivity.
Defined.

Lemma sign_up_then_login_example :
  exists file1,
    demo_main (demo_resources "invoice") initial_session widgets_sign_up
      "2024-05-01 09:00:00" (init_db None)
    = Some (Returned
              (initial_session,
               {| sidebar := None;
                  body := [st_success "Account Created! Please Login."] |}),
            file1, []) /\
    users file1
    = users (init_db None) ++
      [UserRow (username_input widgets_sign_up)
         (make_hashes plain_digest (password_input widgets_sign_up))] /\
    history file1 = history (init_db None) /\
    demo_main (demo_resources "invoice") initial_session widgets_login
      "2024-05-01 09:01:00" file1
    = Some (Returned
              ({| logged_in := true;
                  username := username_input widgets_sign_up |},
               {| sidebar := None; body := [] |}),
            file1, []).
Proof.
  apply (@sign_up_then_login plain_digest scan nat demo_ocr demo_upload
           demo_name demo_open (demo_resources "invoice") initial_session
           widgets_sign_up widgets_login "2024-05-01 09:00:00"
           "2024-05-01 09:01:00" (init_db None));
    reflexivity.
Defined.

Lemma dashboard_raises_on_trailing_quote_example :
  demo_main (demo_resources "invoice") quote_session widgets_process
    "2024-05-01 10:00:00" one_user
  = Some (Raised (PyExn "pandas.errors.DatabaseError"
                    "Execution failed on sql: sqlite3.OperationalError"),
          one_user, []).
Proof.
  apply (@dashboard_raises_on_trailing_quote plain_digest scan nat demo_ocr
           demo_upload demo_name demo_open (demo_resources "invoice")
           quote_session widgets_process "2024-05-01 10:00:00" one_user
           "dev");
    try reflexivity.
  discriminate.
Defined.

Lemma script_run_without_models_example :
  script_run plain_digest demo_ocr demo_name demo_open demo_artifacts
    None widgets_login "2024-05-01 10:00:00" (Some one_user)
  = script_run plain_digest demo_ocr demo_name demo_open
      demo_artifacts_loaded None widgets_login "2024-05-01 10:00:00"
      (Some one_user).
Proof.
  apply (@script_run_without_models plain_digest scan nat demo_ocr
           demo_upload demo_name demo_open demo_artifacts
           demo_artifacts_loaded None widgets_login "2024-05-01 10:00:00"
           (Some one_user)).
  discriminate.
Defined.

End ScriptExtras.
